(** * Refold Helper Bot: homework scheduler and course health check

    A shallow embedding of the parts of
    [refold_helper_bot/services/homework_service.py],
    [refold_helper_bot/services/course_service.py] and
    [refold_helper_bot/services/thread_service.py] that schedule homework
    posts, compute "next occurrence" times and tier student activity.

    Conventions of the model:
    - a timezone-aware [datetime] is an instant in microseconds since the
      Unix epoch (UTC), a [Z]; a naive wall-clock reading is the same
      count taken in local time;
    - a Python [dict] is an association list in insertion order (Python
      dicts iterate in insertion order and the scheduler depends on it);
    - Python [str] is [String.string]; Python [int] is [Z];
    - exceptions are the [Raise] branch of a small state/exception monad. *)

From Stdlib Require Import String Ascii List ZArith Bool Lia.
From Stdlib Require Import Sorting.Sorted Sorting.Permutation.
Import ListNotations.
Open Scope string_scope.
Open Scope Z_scope.

(* ------------------------------------------------------------------ *)
(** ** Time units *)

Definition MICRO : Z := 1.
Definition SECOND : Z := 1000000.
Definition MINUTE : Z := 60 * SECOND.
Definition HOUR : Z := 60 * MINUTE.
Definition DAY : Z := 24 * HOUR.

(* ------------------------------------------------------------------ *)
(** ** Python dictionaries in insertion order *)

Module PyDict.
Section Dict.
Context {V : Type}.

Definition dict := list (string * V).

Fixpoint get (k : string) (d : dict) : option V :=
  match d with
  | [] => None
  | (k', v) :: d' => if String.eqb k k' then Some v else get k d'
  end.

Definition mem (k : string) (d : dict) : bool :=
  match get k d with Some _ => true | None => false end.

(** [d[k] = v]: an existing key keeps its position, a new key goes last. *)
Fixpoint set (k : string) (v : V) (d : dict) : dict :=
  match d with
  | [] => [(k, v)]
  | (k', v') :: d' => if String.eqb k k' then (k', v) :: d' else (k', v') :: set k v d'
  end.

(** [d.values()] *)
Definition values (d : dict) : list V := map snd d.

(** [del d[k]] for a key that is present (the callers check first): the
    other entries keep their order. Keys of a dict are distinct, so
    dropping every entry with key [k] drops exactly one. *)
Definition delete (k : string) (d : dict) : dict :=
  filter (fun kv => negb (String.eqb (fst kv) k)) d.

End Dict.
End PyDict.

Arguments PyDict.dict : clear implicits.

(* ------------------------------------------------------------------ *)
(** ** [HomeworkAssignment] *)

Record HomeworkAssignment := mkAssignment {
  homework_id : string;
  course_name : string;
  title : string;
  content : string;
  scheduled_datetime : Z;        (* aware datetime, UTC *)
  course_day : Z;
  status : string;               (* pending, posted, failed *)
  posted_at : option Z;
  error_message : option string;
  forum_channel_id : option Z;
  thread_id : option Z
}.

(** [assignment.status = "posted"; posted_at = now; thread_id = t; error_message = None] *)
Definition set_posted (a : HomeworkAssignment) (now t : Z) : HomeworkAssignment :=
  {| homework_id := homework_id a; course_name := course_name a; title := title a;
     content := content a; scheduled_datetime := scheduled_datetime a;
     course_day := course_day a; status := "posted"; posted_at := Some now;
     error_message := None; forum_channel_id := forum_channel_id a;
     thread_id := Some t |}.

(** [assignment.status = "failed"; assignment.error_message = msg] *)
Definition set_failed (a : HomeworkAssignment) (msg : string) : HomeworkAssignment :=
  {| homework_id := homework_id a; course_name := course_name a; title := title a;
     content := content a; scheduled_datetime := scheduled_datetime a;
     course_day := course_day a; status := "failed"; posted_at := posted_at a;
     error_message := Some msg; forum_channel_id := forum_channel_id a;
     thread_id := thread_id a |}.

Definition assignments := PyDict.dict HomeworkAssignment.

(* ------------------------------------------------------------------ *)
(** ** The service's state and a state/exception monad *)

(** Python exceptions: an [Exception] with its [str(e)], or the
    [asyncio.CancelledError] delivered at an [await]. *)
Inductive exn := Exc (msg : string) | CancelledError.

Inductive res (A : Type) := Ok (a : A) | Raise (e : exn).
Arguments Ok {A} a.
Arguments Raise {A} e.

(** [self._assignments] and every document written by
    [_save_homework_assignments] (most recent first). *)
Record HW := mkHW { hw_assignments : assignments; hw_saved : list assignments }.

Definition M (A : Type) := HW -> HW * res A.

Definition ret {A} (a : A) : M A := fun s => (s, Ok a).
Definition bind {A B} (m : M A) (k : A -> M B) : M B :=
  fun s => match m s with
           | (s', Ok a) => k a s'
           | (s', Raise e) => (s', Raise e)
           end.
Definition raise {A} (e : exn) : M A := fun s => (s, Raise e).
(** [try m except Exception as e: h(str(e))]; [CancelledError] is a
    [BaseException] and passes through. *)
Definition try_except {A} (m : M A) (h : string -> M A) : M A :=
  fun s => match m s with
           | (s', Raise (Exc msg)) => h msg s'
           | r => r
           end.
Definition get_store : M assignments := fun s => (s, Ok (hw_assignments s)).
Definition put_store (d : assignments) : M unit :=
  fun s => (mkHW d (hw_saved s), Ok tt).

Notation "x <-- c ;; k" := (bind c (fun x => k))
  (at level 61, c at next level, right associativity).
Notation "c ;;; k" := (bind c (fun _ => k)) (at level 61, right associativity).

Section Store.

(** The outcome of persisting the document through the [DataManager]:
    [None] when it is written, [Some msg] when
    [_save_homework_assignments] raises with message [msg]. *)
Variable save_outcome : assignments -> option string.

(** [_save_homework_assignments] *)
Definition save_homework_assignments : M unit :=
  fun s => match save_outcome (hw_assignments s) with
           | None => (mkHW (hw_assignments s) (hw_assignments s :: hw_saved s), Ok tt)
           | Some msg => (s, Raise (Exc msg))
           end.

(** [mark_assignment_posted(assignment_id, thread_id)]; [now] is the value
    of [_get_utc_now()] at the call. *)
Definition mark_assignment_posted (assignment_id : string) (tid now : Z) : M bool :=
  d <-- get_store ;;
  match PyDict.get assignment_id d with
  | Some a =>
      put_store (PyDict.set assignment_id (set_posted a now tid) d) ;;;
      save_homework_assignments ;;;
      ret true
  | None => ret false
  end.

(** [mark_assignment_failed(assignment_id, error_message)] *)
Definition mark_assignment_failed (assignment_id : string) (msg : string) : M bool :=
  d <-- get_store ;;
  match PyDict.get assignment_id d with
  | Some a =>
      put_store (PyDict.set assignment_id (set_failed a msg) d) ;;;
      save_homework_assignments ;;;
      ret true
  | None => ret false
  end.

End Store.

(* ------------------------------------------------------------------ *)
(** ** [str(int)] *)

Fixpoint digits_rev (fuel : nat) (n : Z) : list ascii :=
  match fuel with
  | O => []
  | S f =>
      let d := ascii_of_nat (48 + Z.to_nat (n mod 10)) in
      if n <? 10 then [d] else d :: digits_rev f (n / 10)
  end.

Definition string_of_list (l : list ascii) : string :=
  fold_right String EmptyString l.

(** Decimal rendering of an [int]; the fuel (number of bits) bounds the
    number of decimal digits. *)
Definition py_str_int (n : Z) : string :=
  let m := Z.abs n in
  let ds := string_of_list (rev (digits_rev (S (Pos.size_nat (Z.to_pos (m + 1)))) m)) in
  if n <? 0 then ("-" ++ ds)%string else ds.

(** [str(x)] for an [Optional[int]] *)
Definition py_str_opt_int (x : option Z) : string :=
  match x with Some n => py_str_int n | None => "None" end.

(* ------------------------------------------------------------------ *)
(** ** Due, pending and overdue views *)

Definition is_due (now : Z) (a : HomeworkAssignment) : bool :=
  String.eqb (status a) "pending" && (scheduled_datetime a <=? now).

(** The list built at the top of [_scheduler_loop]:
    [[a for a in self._assignments.values()
        if a.status == "pending" and a.scheduled_datetime <= now]] *)
Definition due_assignments (now : Z) (d : assignments) : list HomeworkAssignment :=
  filter (is_due now) (PyDict.values d).

(** [list.sort(key=lambda x: x.scheduled_datetime)], a stable sort:
    each element is inserted after every element whose key is not larger. *)
Fixpoint insert_by_sched (a : HomeworkAssignment) (l : list HomeworkAssignment)
  : list HomeworkAssignment :=
  match l with
  | [] => [a]
  | b :: l' =>
      if scheduled_datetime b <=? scheduled_datetime a
      then b :: insert_by_sched a l'
      else a :: l
  end.

Definition sort_by_sched (l : list HomeworkAssignment) : list HomeworkAssignment :=
  fold_left (fun acc a => insert_by_sched a acc) l [].

(** [get_overdue_assignments()], with [now = self._get_utc_now()]. *)
Definition get_overdue_assignments (now : Z) (d : assignments) : list HomeworkAssignment :=
  sort_by_sched (filter (is_due now) (PyDict.values d)).

(* ------------------------------------------------------------------ *)
(** ** Posting and the scheduler loop *)

(** What the Discord side of [_post_homework_assignment] meets for an
    assignment: the checks on the channel, then [channel.create_thread]. *)
Inductive DiscordOutcome :=
| ChannelNotFound                      (* bot.get_channel(...) is None *)
| NotForumChannel
| NoCreateThreadsPermission (channel_name : string)
| NoSendMessagesPermission (channel_name : string)
| CreateForbidden (msg : string)       (* discord.Forbidden *)
| CreateHTTPException (msg : string)   (* discord.HTTPException *)
| CreateOtherError (msg : string)      (* any other Exception *)
| ThreadCreated (thread : Z).

Section Scheduler.

Variable save_outcome : assignments -> option string.
Variable discord : HomeworkAssignment -> DiscordOutcome.

(** [_post_homework_assignment(bot, assignment)]; [pnow] is the clock
    read by [mark_assignment_posted]. The plain [Exception]s raised in
    the body reach the last [except Exception] clause and are re-raised
    as ["Failed to post homework: ..."]. *)
Definition post_homework_assignment (pnow : Z) (a : HomeworkAssignment) : M unit :=
  let failed (m : string) := raise (Exc ("Failed to post homework: " ++ m)) in
  match discord a with
  | ChannelNotFound =>
      failed ("Forum channel " ++ py_str_opt_int (forum_channel_id a) ++ " not found")
  | NotForumChannel =>
      failed ("Channel " ++ py_str_opt_int (forum_channel_id a) ++ " is not a forum channel")
  | NoCreateThreadsPermission n => failed ("Missing permission to create threads in " ++ n)
  | NoSendMessagesPermission n => failed ("Missing permission to send messages in " ++ n)
  | CreateForbidden m => raise (Exc ("Permission denied to post in forum: " ++ m))
  | CreateHTTPException m => raise (Exc ("Discord API error: " ++ m))
  | CreateOtherError m => failed m
  | ThreadCreated t =>
      try_except (mark_assignment_posted save_outcome (homework_id a) t pnow ;;; ret tt)
                 failed
  end.

(** The [for assignment in due_assignments:] loop with its
    per-assignment [try]/[except Exception]. *)
Fixpoint process_due (pnow : Z) (due : list HomeworkAssignment) : M unit :=
  match due with
  | [] => ret tt
  | a :: rest =>
      try_except (post_homework_assignment pnow a)
                 (fun m => mark_assignment_failed save_outcome (homework_id a) m ;;; ret tt) ;;;
      process_due pnow rest
  end.

Inductive LoopCtl := Continue | Break.

(** [await asyncio.sleep(60)]: the only point where a cancellation of the
    task is delivered. *)
Definition sleep60 (cancel : bool) : M unit :=
  if cancel then raise CancelledError else ret tt.

(** One pass of [while self._running:]. [Ok Continue] goes round again,
    [Ok Break] is the [break] of [except asyncio.CancelledError], and a
    [Raise] leaves the coroutine. *)
Definition scheduler_iteration (now pnow : Z) (cancel : bool) : M LoopCtl :=
  fun s =>
    match (d <-- get_store ;; process_due pnow (due_assignments now d) ;;; sleep60 cancel) s with
    | (s', Ok _) => (s', Ok Continue)
    | (s', Raise CancelledError) => (s', Ok Break)
    | (s', Raise (Exc _)) => (sleep60 cancel ;;; ret Continue) s'
    end.

(** [_scheduler_loop] over a finite run of wake-ups [(now, pnow, cancel)],
    with [self._running] staying true. *)
Fixpoint scheduler_loop (ticks : list (Z * Z * bool)) : M unit :=
  match ticks with
  | [] => ret tt
  | (now, pnow, cancel) :: rest =>
      c <-- scheduler_iteration now pnow cancel ;;
      match c with
      | Continue => scheduler_loop rest
      | Break => ret tt
      end
  end.

End Scheduler.

(* ------------------------------------------------------------------ *)
(** ** pytz-aware datetimes

    [pytz.timezone(tz)] attaches to a datetime a tzinfo with one fixed UTC
    offset, the one in force at the instant it was localized or converted
    at. Arithmetic ([+ timedelta]) and [replace] act on the wall-clock
    fields and keep that tzinfo; [astimezone] and comparisons with
    different tzinfos go through [wall - utcoffset]. *)

Record AwareDT := mkAware { wall : Z; utcoffset : Z }.

Definition to_utc (t : AwareDT) : Z := wall t - utcoffset t.

(** [datetime.now(tz)] / [now_utc.astimezone(tz)] for a zone whose offset at
    UTC instant [u] is [tz_offset u]. *)
Definition astimezone (tz_offset : Z -> Z) (u : Z) : AwareDT :=
  mkAware (u + tz_offset u) (tz_offset u).

(** [t + timedelta(days=k)] *)
Definition add_days (t : AwareDT) (k : Z) : AwareDT :=
  mkAware (wall t + k * DAY) (utcoffset t).

(** The first instant of the wall-clock day of [w]. *)
Definition floor_day (w : Z) : Z := w / DAY * DAY.

(** [t.replace(hour=h, minute=m, second=0, microsecond=0)]; [None] is the
    [ValueError] for an hour or minute out of range. *)
Definition replace_hm (t : AwareDT) (h m : Z) : option AwareDT :=
  if (0 <=? h) && (h <=? 23) && (0 <=? m) && (m <=? 59)
  then Some (mkAware (floor_day (wall t) + h * HOUR + m * MINUTE) (utcoffset t))
  else None.

(** [t.weekday()], 0 = Monday: 1970-01-01 was a Thursday. *)
Definition weekday (t : AwareDT) : Z := (wall t / DAY + 3) mod 7.

(** [target_time <= now] for two datetimes sharing one tzinfo object:
    Python compares their wall-clock fields. *)
Definition le_same_tz (a b : AwareDT) : bool := wall a <=? wall b.

(** [ThreadService.calculate_next_daily_occurrence(hour, minute, timezone)]
    with [now = datetime.now(pytz.timezone(timezone))]. *)
Definition calculate_next_daily_occurrence (hour minute : Z) (now : AwareDT)
  : option AwareDT :=
  match replace_hm now hour minute with
  | None => None
  | Some target_time =>
      Some (if le_same_tz target_time now then add_days target_time 1 else target_time)
  end.

(** [ThreadService.calculate_next_weekly_occurrence(hour, minute, day_of_week, timezone)] *)
Definition calculate_next_weekly_occurrence (hour minute day_of_week : Z) (now : AwareDT)
  : option AwareDT :=
  match replace_hm now hour minute with
  | None => None
  | Some target_time =>
      let days_ahead := (day_of_week - weekday now + 7) mod 7 in
      let days_ahead :=
        if (days_ahead =? 0) && le_same_tz target_time now then 7 else days_ahead in
      Some (add_days target_time days_ahead)
  end.

(* ------------------------------------------------------------------ *)
(** ** Health-check time windows ([CourseService.run_health_check]) *)

(** [week_start_utc]: [now_pacific - timedelta(days=7)], then
    [.replace(hour=0, minute=0, second=0, microsecond=0)], then
    [.astimezone(utc)]. *)
Definition week_start_utc (pacific : Z -> Z) (now_utc : Z) : Z :=
  let now_pacific := astimezone pacific now_utc in
  let week_start_pacific := add_days now_pacific (-7) in
  let week_start_pacific :=
    mkAware (floor_day (wall week_start_pacific)) (utcoffset week_start_pacific) in
  to_utc week_start_pacific.

(** [month_start_utc]: [(now_pacific - timedelta(days=30)).astimezone(utc)]. *)
Definition month_start_utc (pacific : Z -> Z) (now_utc : Z) : Z :=
  to_utc (add_days (astimezone pacific now_utc) (-30)).

(** The per-student counters of the scan. *)
Record Activity := mkActivity { total : Z; week : Z; last_message : option Z }.

(** The update made for a non-bot message attributed to a student. *)
Definition count_message (week_start : Z) (created_at : Z) (act : Activity) : Activity :=
  mkActivity
    (total act + 1)
    (if week_start <=? created_at then week act + 1 else week act)
    (match last_message act with
     | None => Some created_at
     | Some l => if l <? created_at then Some created_at else Some l
     end).

(** The rows of the tz database for US/Pacific from November 2023 to
    November 2025: UTC instants (seconds) of the transitions and the
    offset (seconds) in force from each on. Before the first row the
    zone is on standard time. *)
Definition us_pacific_rows : list (Z * Z) :=
  [ (1699174800, -28800);   (* 2023-11-05 09:00 UTC, PST *)
    (1710064800, -25200);   (* 2024-03-10 10:00 UTC, PDT *)
    (1730624400, -28800);   (* 2024-11-03 09:00 UTC, PST *)
    (1741514400, -25200);   (* 2025-03-09 10:00 UTC, PDT *)
    (1762074000, -28800) ]. (* 2025-11-02 09:00 UTC, PST *)

Definition us_pacific_offset (u : Z) : Z :=
  SECOND * fold_left (fun off row => if fst row * SECOND <=? u then snd row else off)
                     us_pacific_rows (-28800).

(* ------------------------------------------------------------------ *)
(** ** Python string methods on ASCII text *)

Fixpoint chars (s : string) : list ascii :=
  match s with EmptyString => [] | String c s' => c :: chars s' end.

(** [str.isspace()] on ASCII: tab, line feed, vertical tab, form feed,
    carriage return, the four separators 0x1c-0x1f and space. *)
Definition is_py_space (c : ascii) : bool :=
  let n := nat_of_ascii c in
  ((9 <=? n) && (n <=? 13))%nat || ((28 <=? n) && (n <=? 32))%nat.

Fixpoint drop_while (p : ascii -> bool) (l : list ascii) : list ascii :=
  match l with
  | [] => []
  | c :: l' => if p c then drop_while p l' else l
  end.

(** [s.strip(chars)] for the characters selected by [p]. *)
Definition strip_by (p : ascii -> bool) (s : string) : string :=
  string_of_list (rev (drop_while p (rev (drop_while p (chars s))))).

(** [s.strip()] *)
Definition py_strip (s : string) : string := strip_by is_py_space s.

(** [s.strip(c)] for a one-character argument. *)
Definition py_strip_char (c : ascii) (s : string) : string :=
  strip_by (fun x => Ascii.eqb x c) s.

Definition lower_ascii (c : ascii) : ascii :=
  let n := nat_of_ascii c in
  if ((65 <=? n) && (n <=? 90))%nat then ascii_of_nat (n + 32) else c.

(** [s.lower()] *)
Definition py_lower (s : string) : string := string_of_list (map lower_ascii (chars s)).

(** [s.split(sep)] for a one-character separator: empty fields are kept. *)
Fixpoint split_on (sep : ascii) (l : list ascii) : list (list ascii) :=
  match l with
  | [] => [[]]
  | c :: l' =>
      match split_on sep l' with
      | [] => [] (* unreachable *)
      | f :: fs => if Ascii.eqb c sep then [] :: f :: fs else (c :: f) :: fs
      end
  end.

Definition py_split (sep : ascii) (s : string) : list string :=
  map string_of_list (split_on sep (chars s)).

(** [text.replace('\\n', '\n')]: each backslash followed by [n] becomes a
    line feed, scanning left to right. *)
Fixpoint replace_backslash_n (l : list ascii) : list ascii :=
  match l with
  | c :: (d :: l'') as l' =>
      if Ascii.eqb c "\"%char && Ascii.eqb d "n"%char
      then "010"%char :: replace_backslash_n l''
      else c :: replace_backslash_n l'
  | _ => l
  end.

Definition is_digit (c : ascii) : bool :=
  let n := nat_of_ascii c in ((48 <=? n) && (n <=? 57))%nat.

Definition is_alnum (c : ascii) : bool :=
  let n := nat_of_ascii c in
  is_digit c || ((65 <=? n) && (n <=? 90))%nat || ((97 <=? n) && (n <=? 122))%nat.

(** The body of [int(s)] after the sign: decimal digits, single
    underscores allowed between two digits. *)
Fixpoint parse_digits (acc : Z) (after_digit : bool) (l : list ascii) : option Z :=
  match l with
  | [] => if after_digit then Some acc else None
  | c :: l' =>
      if is_digit c
      then parse_digits (acc * 10 + Z.of_nat (nat_of_ascii c - 48)) true l'
      else if Ascii.eqb c "_"%char && after_digit
           then match l' with
                | d :: _ => if is_digit d then parse_digits acc false l' else None
                | [] => None
                end
           else None
  end.

(** [int(s)] in base 10 on ASCII text; [None] is the [ValueError]. *)
Definition py_int (s : string) : option Z :=
  match chars (py_strip s) with
  | c :: l =>
      if Ascii.eqb c "-"%char then option_map Z.opp (parse_digits 0 false l)
      else if Ascii.eqb c "+"%char then parse_digits 0 false l
      else parse_digits 0 false (c :: l)
  | [] => None
  end.

(** [str(e)] of the [ValueError] of [int(s)] ([repr] of a string without
    quotes or backslashes). *)
Definition int_error (s : string) : string :=
  "invalid literal for int() with base 10: '" ++ s ++ "'".

(* ------------------------------------------------------------------ *)
(** ** Proleptic Gregorian calendar *)

(** Days from 1970-01-01 to the civil date [y-m-d]. *)
Definition days_from_civil (y m d : Z) : Z :=
  let y := if m <=? 2 then y - 1 else y in
  let era := y / 400 in
  let yoe := y - era * 400 in
  let doy := (153 * (if 2 <? m then m - 3 else m + 9) + 2) / 5 + d - 1 in
  let doe := yoe * 365 + yoe / 4 - yoe / 100 + doy in
  era * 146097 + doe - 719468.

(** The civil date [(y, m, d)] of a day count from 1970-01-01. *)
Definition civil_from_days (z : Z) : Z * Z * Z :=
  let z := z + 719468 in
  let era := z / 146097 in
  let doe := z - era * 146097 in
  let yoe := (doe - doe / 1460 + doe / 36524 - doe / 146096) / 365 in
  let y := yoe + era * 400 in
  let doy := doe - (365 * yoe + yoe / 4 - yoe / 100) in
  let mp := (5 * doy + 2) / 153 in
  let d := doy - (153 * mp + 2) / 5 + 1 in
  let m := if mp <? 10 then mp + 3 else mp - 9 in
  (if m <=? 2 then y + 1 else y, m, d).

Definition is_leap (y : Z) : bool :=
  (y mod 4 =? 0) && (negb (y mod 100 =? 0) || (y mod 400 =? 0)).

Definition days_in_month (y m : Z) : Z :=
  if m =? 2 then (if is_leap y then 29 else 28)
  else if (m =? 4) || (m =? 6) || (m =? 9) || (m =? 11) then 30 else 31.

(** [datetime(year, month, day, hour, minute)] as a naive wall-clock
    reading, or the message of its [ValueError], checked in CPython's order. *)
Definition make_datetime (y mo d h mi : Z) : string + Z :=
  if negb ((1 <=? y) && (y <=? 9999)) then inl ("year " ++ py_str_int y ++ " is out of range")
  else if negb ((1 <=? mo) && (mo <=? 12)) then inl "month must be in 1..12"
  else if negb ((1 <=? d) && (d <=? days_in_month y mo)) then inl "day is out of range for month"
  else if negb ((0 <=? h) && (h <=? 23)) then inl "hour must be in 0..23"
  else if negb ((0 <=? mi) && (mi <=? 59)) then inl "minute must be in 0..59"
  else inr (days_from_civil y mo d * DAY + h * HOUR + mi * MINUTE).

Definition pad2 (n : Z) : string := if n <? 10 then "0" ++ py_str_int n else py_str_int n.

(** [dt.strftime("%Y%m%d_%H%M")] of a UTC instant. *)
Definition strftime_id (u : Z) : string :=
  match civil_from_days (u / DAY) with
  | (y, m, d) =>
      py_str_int y ++ pad2 m ++ pad2 d ++ "_" ++ pad2 (u mod DAY / HOUR) ++ pad2 (u mod HOUR / MINUTE)
  end.

(* ------------------------------------------------------------------ *)
(** ** CSV rows

    The uploads read their text with [csv.DictReader]; the model starts
    from what it yields: the header's [fieldnames] and the rows, each a
    dict from field name to value, where a row shorter than the header
    holds [None] (the reader's [restval]) for the missing fields. *)

Definition DictRow := PyDict.dict (option string).

(** [row.get(key, default)]; [None] is Python's [None]. *)
Definition row_get (row : DictRow) (key default : string) : option string :=
  match PyDict.get key row with Some v => v | None => Some default end.

Definition has_columns (required fieldnames : list string) : bool :=
  forallb (fun c => existsb (String.eqb c) fieldnames) required.

Definition missing_columns (required fieldnames : list string) : list string :=
  filter (fun c => negb (existsb (String.eqb c) fieldnames)) required.

(** [str(e)] of the [AttributeError] of [None.strip()]. *)
Definition none_strip_error : string := "'NoneType' object has no attribute 'strip'".

Definition row_prefix (row_num : Z) : string := "Row " ++ py_str_int row_num ++ ": ".

(* ------------------------------------------------------------------ *)
(** ** [HomeworkService.upload_homework_schedule] *)

Definition required_homework_columns : list string :=
  ["title"; "text"; "post_date"; "post_time"; "course_day"].

(** The part of the clean-up in [_generate_assignment_id] applied to the
    title: keep alphanumerics, space, [-] and [_]; strip; spaces to
    underscores; at most 20 characters. *)
Definition clean_title (t : string) : string :=
  let kept := filter (fun c => is_alnum c || Ascii.eqb c " "%char || Ascii.eqb c "-"%char
                               || Ascii.eqb c "_"%char) (chars t) in
  let stripped := py_strip (string_of_list kept) in
  let underscored := map (fun c => if Ascii.eqb c " "%char then "_"%char else c) (chars stripped) in
  string_of_list (firstn 20 underscored).

(** [_generate_assignment_id(course_name, title, scheduled_datetime)] *)
Definition generate_assignment_id (course title : string) (scheduled : Z) : string :=
  py_lower course ++ "_" ++ clean_title title ++ "_" ++ strftime_id scheduled.

(** The outcome of the validation of one row, before the duplicate check:
    a warning, or the stripped title and text, the naive Pacific
    wall-clock reading of [post_date]/[post_time] and the course day. *)
Inductive RowParse :=
| RowInvalid (warning : string)
| RowValid (title text : string) (wall_pacific : Z) (course_day : Z).

(** Lines 168-180: [post_date.split('-')], three [int]s, [post_time.split(':')],
    two [int]s, then [datetime(year, month, day, hour, minute)]. *)
Definition parse_date_time (post_date post_time : string) : string + Z :=
  match py_split "-"%char post_date with
  | [ys; ms; ds] =>
      match py_int ys, py_int ms, py_int ds with
      | None, _, _ => inl (int_error ys)
      | _, None, _ => inl (int_error ms)
      | _, _, None => inl (int_error ds)
      | Some y, Some mo, Some d =>
          match py_split ":"%char post_time with
          | [hs; mis] =>
              match py_int hs, py_int mis with
              | None, _ => inl (int_error hs)
              | _, None => inl (int_error mis)
              | Some h, Some mi => make_datetime y mo d h mi
              end
          | _ => inl "Time must be in HH:MM format"
          end
      end
  | _ => inl "Date must be in YYYY-MM-DD format"
  end.

(** Lines 147-190 for one row. *)
Definition parse_homework_row (row_num : Z) (row : DictRow) : RowParse :=
  let processing_error :=
    RowInvalid (row_prefix row_num ++ "Error processing - " ++ none_strip_error ++ ", skipping") in
  match row_get row "title" "", row_get row "text" "", row_get row "post_date" "",
        row_get row "post_time" "", row_get row "course_day" "" with
  | Some t0, Some x0, Some pd0, Some pt0, Some cd0 =>
      let title := py_strip t0 in
      let text := string_of_list (replace_backslash_n (chars (py_strip x0))) in
      let post_date := py_strip pd0 in
      let post_time := py_strip pt0 in
      let course_day_str := py_strip cd0 in
      if existsb (String.eqb "") [title; text; post_date; post_time; course_day_str]
      then RowInvalid (row_prefix row_num ++ "Missing required fields, skipping")
      else match py_int course_day_str with
           | None => RowInvalid (row_prefix row_num ++ "Invalid course day '"
                                   ++ course_day_str ++ "', skipping")
           | Some cd =>
               match parse_date_time post_date post_time with
               | inl e => RowInvalid (row_prefix row_num ++ "Invalid date/time - " ++ e ++ ", skipping")
               | inr w => RowValid title text w cd
               end
           end
  | _, _, _, _, _ => processing_error
  end.

Inductive RowStep := RowSkipped (warning : string) | RowNew (a : HomeworkAssignment).

Section Upload.

(** [pacific.localize(dt).astimezone(pytz.UTC)] on a naive wall-clock
    reading: the UTC instant, or the message of the exception raised.
    With its default [is_dst=False], [localize] raises no [ValueError];
    it computes [dt - timedelta(days=1)] and [dt + timedelta(days=1)],
    which raise [OverflowError] ("date value out of range") on the dates
    0001-01-01 and 9999-12-31. [OverflowError] is not a [ValueError]: it
    passes the date/time [except ValueError] and reaches the row's
    [except Exception] (line 211). *)
Variable localize_pacific : Z -> string + Z.
Variable save_outcome : assignments -> option string.
(** [str(set)] of the missing columns: the order of a set of strings
    follows their hashes, which change from one process to the next. *)
Variable set_repr : list string -> string.

(** Lines 147-209 for one row, against the store [d] as it was when the
    upload started (new assignments are added only after the loop). *)
Definition process_homework_row (course : string) (forum_channel_id : Z) (d : assignments)
    (row_num : Z) (row : DictRow) : RowStep :=
  match parse_homework_row row_num row with
  | RowInvalid w => RowSkipped w
  | RowValid title text w cd =>
      match localize_pacific w with
      | inl e => RowSkipped (row_prefix row_num ++ "Error processing - " ++ e ++ ", skipping")
      | inr scheduled_dt_utc =>
          let assignment_id := generate_assignment_id course title scheduled_dt_utc in
          if PyDict.mem assignment_id d
          then RowSkipped (row_prefix row_num ++ "Assignment '" ++ title ++ "' already exists, skipping")
          else RowNew (mkAssignment assignment_id course title text scheduled_dt_utc cd
                                    "pending" None None (Some forum_channel_id) None)
      end
  end.

(** [for row_num, row in enumerate(reader, start=2)]: the warnings and
    the new assignments, in row order. *)
Fixpoint process_homework_rows (course : string) (fc : Z) (d : assignments)
    (row_num : Z) (rows : list DictRow) : list string * list HomeworkAssignment :=
  match rows with
  | [] => ([], [])
  | row :: rest =>
      let '(ws, news) := process_homework_rows course fc d (row_num + 1) rest in
      match process_homework_row course fc d row_num row with
      | RowSkipped w => (w :: ws, news)
      | RowNew a => (ws, a :: news)
      end
  end.

Definition add_assignments (news : list HomeworkAssignment) (d : assignments) : assignments :=
  fold_left (fun d a => PyDict.set (homework_id a) a d) news d.

(** [upload_homework_schedule(course_name, csv_content, forum_channel_id)]
    on the header and rows read from [csv_content]; the value is
    [(success, message, warnings)]. *)
Definition upload_homework_schedule (course : string) (fieldnames : list string)
    (rows : list DictRow) (forum_channel_id : Z) : M (bool * string * list string) :=
  try_except
    (if negb (has_columns required_homework_columns fieldnames)
     then ret (false, "Missing required columns: "
                      ++ set_repr (missing_columns required_homework_columns fieldnames), [])
     else
       d <-- get_store ;;
       let '(warnings, new_assignments) :=
         process_homework_rows course forum_channel_id d 2 rows in
       match new_assignments with
       | [] => ret (false, "No valid homework assignments found in CSV", warnings)
       | _ =>
           put_store (add_assignments new_assignments d) ;;;
           save_homework_assignments save_outcome ;;;
           ret (true, "Successfully uploaded " ++ py_str_int (Z.of_nat (length new_assignments))
                      ++ " homework assignments", warnings)
       end)
    (fun m => ret (false, "Upload failed: " ++ m, [])).

End Upload.

(* ------------------------------------------------------------------ *)
(** ** [CourseService]: course registry and roster *)

Module Course.

Record CourseConfig := mkCourseConfig {
  name : string;
  role_id : Z;
  category_id : Z;
  channels : list string;
  welcome_message : string
}.

Record StudentRecord := mkStudentRecord {
  email : string;
  student_name : string;    (* the [name] field *)
  discord_handle : string;
  course_name : string;
  enrolled_date : string;
  status : string;
  discord_id : option Z
}.

(** [StudentRecord(...)] with its [__post_init__]. *)
Definition make_student (email name handle course enrolled status : string) : StudentRecord :=
  mkStudentRecord email name (py_strip (py_lower handle)) course enrolled status None.

Record StudentActivity := mkStudentActivity {
  student : StudentRecord;
  total_messages : Z;
  messages_last_week : Z;
  last_message_date : option Z;
  member_since : option Z
}.

(** The property [StudentActivity.activity_tier]. *)
Definition activity_tier (sa : StudentActivity) : string :=
  if messages_last_week sa =? 0 then "At Risk"
  else if messages_last_week sa <? 3 then "Low Activity"
  else "Active".

(** [self._courses] (keys are normalized names) and [self._students]. *)
Record CS := mkCS { cs_courses : PyDict.dict CourseConfig; cs_students : list StudentRecord }.

(** [_normalize_course_name] *)
Definition normalize_course_name (n : string) : string :=
  py_lower (py_strip (py_strip_char "'"%char (py_strip_char (ascii_of_nat 34) (py_strip n)))).

(** [get_course(name)] *)
Definition get_course (courses : PyDict.dict CourseConfig) (n : string) : option CourseConfig :=
  PyDict.get (normalize_course_name n) courses.

Definition required_roster_columns : list string :=
  ["email"; "name"; "discord_handle"; "course_name"].

Section Roster.

(** The order in which [for field in required_columns] visits the set
    [{'email', 'name', 'discord_handle', 'course_name'}]: it follows the
    strings' hashes, which change from one process to the next. *)
Variable required_order : list string.
Variable set_repr : list string -> string.

(** Lines 313-315: the first required field that is [None] or blank. *)
Fixpoint check_required (row_num : Z) (row : DictRow) (fields : list string) : option string :=
  match fields with
  | [] => None
  | f :: fs =>
      match row_get row f "" with
      | None => Some (row_prefix row_num ++ none_strip_error)
      | Some v =>
          if String.eqb (py_strip v) "" then Some (row_prefix row_num ++ f ++ " cannot be empty")
          else check_required row_num row fs
      end
  end.

(** [row[key]] for a key of the header. *)
Definition row_value (row : DictRow) (key : string) : string :=
  match PyDict.get key row with Some (Some v) => v | _ => "" end.

(** Lines 311-333 for one row: the student, or the message of the whole
    load's failure. *)
Definition roster_row (courses : PyDict.dict CourseConfig) (row_num : Z) (row : DictRow)
  : string + StudentRecord :=
  match check_required row_num row required_order with
  | Some e => inl e
  | None =>
      let cname := py_strip (row_value row "course_name") in
      match get_course courses cname with
      | None => inl (row_prefix row_num ++ "Course '" ++ cname
                     ++ "' not configured. Use `!course add` to create it first.")
      | Some _ =>
          match row_get row "enrolled_date" "", row_get row "status" "pending" with
          | Some ed, Some st =>
              inr (make_student (py_strip (row_value row "email")) (py_strip (row_value row "name"))
                                (py_strip (row_value row "discord_handle")) cname
                                (py_strip ed) (py_strip st))
          | _, _ => inl (row_prefix row_num ++ none_strip_error)
          end
      end
  end.

Fixpoint roster_rows (courses : PyDict.dict CourseConfig) (row_num : Z) (rows : list DictRow)
  : string + list StudentRecord :=
  match rows with
  | [] => inr []
  | row :: rest =>
      match roster_row courses row_num row with
      | inl e => inl e
      | inr s =>
          match roster_rows courses (row_num + 1) rest with
          | inl e => inl e
          | inr ss => inr (s :: ss)
          end
      end
  end.

(** [load_roster_from_text(csv_text)] on the header and rows read from
    [csv_text]: the new state and [(success, message)]. *)
Definition load_roster_from_text (fieldnames : list string) (rows : list DictRow) (cs : CS)
  : CS * (bool * string) :=
  if negb (has_columns required_roster_columns fieldnames)
  then (cs, (false, "Missing required columns: "
                    ++ set_repr (missing_columns required_roster_columns fieldnames)))
  else match roster_rows (cs_courses cs) 2 rows with
       | inl e => (cs, (false, e))
       | inr students =>
           (mkCS (cs_courses cs) students,
            (true, "Loaded " ++ py_str_int (Z.of_nat (length students)) ++ " students from roster"))
       end.

End Roster.
End Course.

(* ------------------------------------------------------------------ *)
(** ** More of [HomeworkService]: views, cancellation, summary *)

(** The counting loop of [get_schedule_summary] and [get_roster_summary]:
    [counts[k] = counts.get(k, 0) + 1] for each key in turn. *)
Definition count_by (keys : list string) : PyDict.dict Z :=
  fold_left (fun m k => PyDict.set k (match PyDict.get k m with Some n => n | None => 0 end + 1) m)
            keys [].

Definition is_pending (a : HomeworkAssignment) : bool := String.eqb (status a) "pending".

(** The [if course_name:] filter of [get_pending_assignments] and
    [get_all_assignments]; [None] and [""] are false and keep every
    assignment. *)
Definition filter_course (cn : option string) (l : list HomeworkAssignment)
  : list HomeworkAssignment :=
  match cn with
  | Some c =>
      if String.eqb c "" then l
      else filter (fun a => String.eqb (py_lower (course_name a)) (py_lower c)) l
  | None => l
  end.

(** [get_pending_assignments(course_name)] *)
Definition get_pending_assignments (cn : option string) (d : assignments)
  : list HomeworkAssignment :=
  sort_by_sched (filter_course cn (filter is_pending (PyDict.values d))).

(** [get_all_assignments(course_name)] *)
Definition get_all_assignments (cn : option string) (d : assignments)
  : list HomeworkAssignment :=
  sort_by_sched (filter_course cn (PyDict.values d)).

(** [get_upcoming_assignments(hours_ahead)] with [now = self._get_utc_now()]. *)
Definition get_upcoming_assignments (now hours_ahead : Z) (d : assignments)
  : list HomeworkAssignment :=
  let cutoff := now + hours_ahead * HOUR in
  sort_by_sched (filter (fun a => is_pending a && (scheduled_datetime a <=? cutoff))
                        (PyDict.values d)).

Section HomeworkOps.

Variable save_outcome : assignments -> option string.

(** [cancel_assignment(assignment_id)]; a failing save raises a
    [DataError], which [safe_execute] re-raises as it is. *)
Definition cancel_assignment (assignment_id : string) : M (bool * string) :=
  d <-- get_store ;;
  match PyDict.get assignment_id d with
  | None => ret (false, "Assignment '" ++ assignment_id ++ "' not found")
  | Some a =>
      if negb (String.eqb (status a) "pending")
      then ret (false, "Assignment '" ++ assignment_id ++ "' is already " ++ status a)
      else
        put_store (PyDict.delete assignment_id d) ;;;
        save_homework_assignments save_outcome ;;;
        ret (true, "Assignment '" ++ title a ++ "' cancelled")
  end.

End HomeworkOps.

Fixpoint zeros (n : nat) : string :=
  match n with O => "" | S n' => "0" ++ zeros n' end.

(** A non-negative integer in decimal, zero-padded to [w] digits. *)
Definition zpad (w : nat) (v : Z) : string :=
  let s := py_str_int v in zeros (w - String.length s) ++ s.

(** [dt.isoformat()] of a UTC instant: the [+00:00] offset, and the
    microseconds only when they are not zero. *)
Definition isoformat_utc (u : Z) : string :=
  match civil_from_days (u / DAY) with
  | (y, m, d) =>
      let t := u mod DAY in
      zpad 4 y ++ "-" ++ zpad 2 m ++ "-" ++ zpad 2 d ++ "T"
      ++ zpad 2 (t / HOUR) ++ ":" ++ zpad 2 (t mod HOUR / MINUTE) ++ ":"
      ++ zpad 2 (t mod MINUTE / SECOND)
      ++ (if u mod SECOND =? 0 then "" else "." ++ zpad 6 (u mod SECOND))
      ++ "+00:00"
  end.

(** The dictionary returned by [get_schedule_summary()]. *)
Record ScheduleSummary := mkScheduleSummary {
  total_assignments : Z;
  by_status : PyDict.dict Z;
  by_course : PyDict.dict Z;
  pending_count : Z;
  overdue_count : Z;
  next_assignment : option string;
  scheduler_running : bool
}.

(** [get_schedule_summary()]; [now] is the clock read by
    [get_overdue_assignments] and [running] is [self._running]. *)
Definition get_schedule_summary (now : Z) (running : bool) (d : assignments) : ScheduleSummary :=
  let all_assignments := PyDict.values d in
  let pending := get_pending_assignments None d in
  let overdue := get_overdue_assignments now d in
  mkScheduleSummary
    (Z.of_nat (length all_assignments))
    (count_by (map status all_assignments))
    (count_by (map course_name all_assignments))
    (Z.of_nat (length pending))
    (Z.of_nat (length overdue))
    (match pending with [] => None | a :: _ => Some (isoformat_utc (scheduled_datetime a)) end)
    running.

(* ------------------------------------------------------------------ *)
(** ** More of [CourseService]: the course registry and the roster *)

Module CourseOps.
Import Course.

Section Registry.

(** [_save_course_config()]: [None] when the save succeeds, else the
    message of the [DataError] it raises. *)
Variable save_course_config : PyDict.dict CourseConfig -> option string.

(** The [clean_name] of [add_course]: strip whitespace, then double
    quotes, then single quotes, then whitespace. *)
Definition clean_course_name (name : string) : string :=
  py_strip (py_strip_char "'"%char (py_strip_char (ascii_of_nat 34) (py_strip name))).

(** [add_course(name, role_id, category_id, channels, welcome_message)];
    [channels] is [None] or a list. *)
Definition add_course (name : string) (role_id category_id : Z)
    (channels : option (list string)) (welcome_message : string) (cs : CS)
  : CS * res (bool * string) :=
  let clean_name := clean_course_name name in
  if String.eqb clean_name "" then (cs, Ok (false, "Course name cannot be empty"))
  else
    let normalized_key := normalize_course_name clean_name in
    if PyDict.mem normalized_key (cs_courses cs)
    then (cs, Ok (false, "Course '" ++ clean_name ++ "' already exists"))
    else if (role_id <=? 0) || (category_id <=? 0)
    then (cs, Ok (false, "Role ID and Category ID must be positive integers"))
    else
      let course_config :=
        mkCourseConfig clean_name role_id category_id
                       (match channels with Some l => l | None => [] end) welcome_message in
      let courses := PyDict.set normalized_key course_config (cs_courses cs) in
      let cs' := mkCS courses (cs_students cs) in
      match save_course_config courses with
      | Some msg => (cs', Raise (Exc msg))
      | None => (cs', Ok (true, "Course '" ++ clean_name ++ "' added successfully"))
      end.

(** [remove_course(name)] *)
Definition remove_course (name : string) (cs : CS) : CS * res (bool * string) :=
  let normalized_key := normalize_course_name name in
  match PyDict.get normalized_key (cs_courses cs) with
  | None => (cs, Ok (false, "Course '" ++ name ++ "' not found"))
  | Some removed_course =>
      let courses := PyDict.delete normalized_key (cs_courses cs) in
      let cs' := mkCS courses (cs_students cs) in
      match save_course_config courses with
      | Some msg => (cs', Raise (Exc msg))
      | None => (cs', Ok (true, "Course '" ++ Course.name removed_course ++ "' removed successfully"))
      end
  end.

End Registry.

(** [find_student_by_discord(discord_handle)] *)
Definition find_student_by_discord (students : list StudentRecord) (h : string)
  : option StudentRecord :=
  let normalized := py_strip (py_lower h) in
  find (fun s => String.eqb (discord_handle s) normalized) students.

(** The record changed in place: the first of the list that [p] selects. *)
Fixpoint update_first (p : StudentRecord -> bool) (f : StudentRecord -> StudentRecord)
    (l : list StudentRecord) : list StudentRecord :=
  match l with
  | [] => []
  | x :: l' => if p x then f x :: l' else x :: update_first p f l'
  end.

(** The two assignments of [update_student_discord_id] to the record. *)
Definition set_discord_id (did : Z) (s : StudentRecord) : StudentRecord :=
  mkStudentRecord (email s) (student_name s) (discord_handle s) (course_name s) (enrolled_date s)
    (if String.eqb (status s) "pending" then "enrolled" else status s) (Some did).

(** [update_student_discord_id(discord_handle, discord_id)]: the roster
    after the call and the result. Nothing is saved. *)
Definition update_student_discord_id (h : string) (did : Z) (students : list StudentRecord)
  : list StudentRecord * bool :=
  let normalized := py_strip (py_lower h) in
  let p := fun s => String.eqb (discord_handle s) normalized in
  match find p students with
  | None => (students, false)
  | Some _ => (update_first p (set_discord_id did) students, true)
  end.

(** [get_pending_students()] and [get_enrolled_students()] *)
Definition get_pending_students (students : list StudentRecord) : list StudentRecord :=
  filter (fun s => String.eqb (status s) "pending") students.

Definition get_enrolled_students (students : list StudentRecord) : list StudentRecord :=
  filter (fun s => String.eqb (status s) "enrolled") students.

(** [get_course_students(course_name)] *)
Definition get_course_students (students : list StudentRecord) (cname : string)
  : list StudentRecord :=
  let course_key := py_strip (py_lower cname) in
  filter (fun s => String.eqb (py_lower (course_name s)) course_key) students.

(** The dictionary returned by [get_roster_summary()]. *)
Record RosterSummary := mkRosterSummary {
  total_students : Z;
  students_by_status : PyDict.dict Z;
  students_by_course : PyDict.dict Z;
  configured_courses : Z
}.

Definition get_roster_summary (cs : CS) : RosterSummary :=
  mkRosterSummary
    (Z.of_nat (length (cs_students cs)))
    (count_by (map status (cs_students cs)))
    (count_by (map course_name (cs_students cs)))
    (Z.of_nat (length (cs_courses cs))).

End CourseOps.

(* ------------------------------------------------------------------ *)
(** ** More of [ThreadService]: thread names *)

(** [str.split()] with no argument: runs of whitespace separate the
    words, and no word is empty. *)
Fixpoint split_ws_from (cur : list ascii) (l : list ascii) : list (list ascii) :=
  match l with
  | [] => match cur with [] => [] | _ => [rev cur] end
  | c :: l' =>
      if is_py_space c
      then match cur with
           | [] => split_ws_from [] l'
           | _ => rev cur :: split_ws_from [] l'
           end
      else split_ws_from (c :: cur) l'
  end.

Definition py_split_ws (s : string) : list string :=
  map string_of_list (split_ws_from [] (chars s)).

(** [s.rstrip()] *)
Definition py_rstrip (s : string) : string :=
  string_of_list (rev (drop_while is_py_space (rev (chars s)))).

(** [BaseService.sanitize_string(text, max_length)] for a [str]; a
    negative [max_length] slices from the end as Python does. *)
Definition sanitize_string (text : string) (max_length : option Z) : string :=
  let text := py_strip text in
  match max_length with
  | Some m =>
      let n := Z.of_nat (String.length text) in
      if negb (m =? 0) && (m <? n)
      then let keep := if m <? 0 then Z.max 0 (n + m) else m in
           py_rstrip (substring 0 (Z.to_nat keep) text)
      else text
  | None => text
  end.

(** [ThreadService.generate_thread_name_from_message(message_content)] *)
Definition generate_thread_name_from_message (message_content : string) : string :=
  if String.eqb message_content "" then "New Thread"
  else
    let words := firstn 5 (py_split_ws message_content) in
    let title := String.concat " " words in
    let title := sanitize_string title (Some 90) in
    let title :=
      if (5 <=? Z.of_nat (length words)) || (50 <? Z.of_nat (String.length message_content))
      then title ++ "..." else title in
    if String.eqb title "" then "New Thread" else title.

(* ------------------------------------------------------------------ *)
(** ** [DataManager] channel sets behind [ThreadService]

    The thread channels and the poll channels are each a set of channel
    ids kept in one data file, read afresh by every operation
    ([get_thread_channels] / [get_poll_channels]). The model keeps the
    stored set as a list; its order stands for the set's iteration
    order, which no operation below depends on. *)

Module Channels.

(** What [save_data(data_type, data)] does with the file of a set.
    [NotWritten]: it returns [False] before opening the file (the data
    fails validation, or the backup fails), so the file keeps the old
    set. [WriteFailed reloaded]: [open(json_path, 'w')] or [json.dump]
    raised, so the file may be truncated or partly written; the next
    read ([load_data]) yields [reloaded], which may be the old set, the
    migrated legacy set or the schema's default. *)
Inductive SaveOutcome := Saved | NotWritten | WriteFailed (reloaded : list Z).

Section ChannelSet.

(** [save_data(data_type, data)] for the new set. *)
Variable save_data : list Z -> SaveOutcome.

Definition mem (c : Z) (cs : list Z) : bool := existsb (Z.eqb c) cs.

(** [set_thread_channels(channels)] / [set_poll_channels(channels)]: the
    stored set read afterwards, and the [success] returned. *)
Definition set_channels (new old : list Z) : list Z * bool :=
  match save_data new with
  | Saved => (new, true)
  | NotWritten => (old, false)
  | WriteFailed reloaded => (reloaded, false)
  end.

(** [add_thread_channel(channel_id)] / [add_poll_channel(channel_id)] *)
Definition add_channel (c : Z) (cs : list Z) : list Z * bool :=
  if mem c cs then (cs, false) else set_channels (cs ++ [c]) cs.

(** [remove_thread_channel(channel_id)] / [remove_poll_channel(channel_id)] *)
Definition remove_channel (c : Z) (cs : list Z) : list Z * bool :=
  if negb (mem c cs) then (cs, false)
  else set_channels (filter (fun x => negb (Z.eqb x c)) cs) cs.

(** [clear_thread_channels()] *)
Definition clear_channels (cs : list Z) : list Z * bool := set_channels [] cs.

End ChannelSet.

(** The [ThreadService] wrappers ([add_thread_channel], ...): the check
    of [_ensure_initialized], then the [DataManager] call; [safe_execute]
    turns the [RuntimeError] into a [ServiceError]. *)
Definition service_call (operation_name : string) (initialized : bool)
    (op : list Z -> list Z * bool) (cs : list Z) : list Z * res bool :=
  if negb initialized
  then (cs, Raise (Exc (operation_name ++ " failed: ThreadService must be initialized before use")))
  else let (cs', b) := op cs in (cs', Ok b).

End Channels.

(* ------------------------------------------------------------------ *)
(** ** Concrete inputs used by the examples below *)

Definition sample_student : Course.StudentRecord :=
  Course.make_student "a@example.com" "A" "a" "Course" "" "pending".

Definition sample_activity (tot recent : Z) : Course.StudentActivity :=
  Course.mkStudentActivity sample_student tot recent None None.

(** A pending assignment of course "Spanish" scheduled at [t] seconds. *)
Definition sample_assignment (hid : string) (t : Z) : HomeworkAssignment :=
  mkAssignment hid "Spanish" hid "body" (t * SECOND) 1 "pending" None None (Some 42) None.

(** Every save succeeds. *)
Definition save_ok : assignments -> option string := fun _ => None.

(** Every save fails. *)
Definition save_disk_full : assignments -> option string :=
  fun _ => Some "Failed to save homework assignments: disk full".

Definition store_of (l : list HomeworkAssignment) : HW :=
  mkHW (map (fun a => (homework_id a, a)) l) [].

Definition status_in (hid : string) (s : HW) : option string :=
  option_map status (PyDict.get hid (hw_assignments s)).

(** Discord answers [hwA] with an HTTP error and creates a thread for
    every other assignment. *)
Definition discord_fail_first (a : HomeworkAssignment) : DiscordOutcome :=
  if String.eqb (homework_id a) "hwA" then CreateHTTPException "503 Service Unavailable"
  else ThreadCreated 9.


(** A CSV row where every field of the header has a value. *)
Definition mk_row (fields : list (string * string)) : DictRow :=
  map (fun kv => (fst kv, Some (snd kv))) fields.

(** Localization on Pacific standard time (UTC-8), right for dates
    between November and March; on the first and the last day
    [datetime] can hold, [localize] overflows. *)
Definition pst_localize (w : Z) : string + Z :=
  let day := w / DAY in
  if (day =? days_from_civil 1 1 1) || (day =? days_from_civil 9999 12 31)
  then inl "date value out of range"
  else inr (w + 8 * HOUR).

(** One rendering of a set of column names. *)
Definition set_repr_listed (l : list string) : string :=
  "{'" ++ String.concat "', '" l ++ "'}".


(** A homework row dated 0001-01-01, which [localize] cannot handle. *)
Definition row_year_one : DictRow :=
  mk_row [("title", "Start"); ("text", "Day one"); ("post_date", "0001-01-01");
          ("post_time", "09:00"); ("course_day", "1")].


(** A registry with the single course "Known" and a roster of one. *)
Definition config_known : Course.CourseConfig :=
  Course.mkCourseConfig "Known" 1 2 [] "Welcome".

Definition cs_known : Course.CS :=
  Course.mkCS [("known", config_known)] [sample_student].

(** Roster rows: the first has a blank email, the second names a course
    that is not configured. *)
Definition roster_blank_email : DictRow :=
  mk_row [("email", ""); ("name", "Ana"); ("discord_handle", "ana"); ("course_name", "Known")].

Definition roster_unknown_course : DictRow :=
  mk_row [("email", "bo@example.com"); ("name", "Bo"); ("discord_handle", "bo");
          ("course_name", "Unknown")].

(** No step of the scheduler other than [sleep60 true] raises
    [CancelledError]. *)
Definition no_cancel {A} (m : M A) : Prop := forall s, snd (m s) <> Raise CancelledError.

Create HintDb no_cancel.

(** The weekday of the [k]-th day after the day of [now]. *)
Definition weekday_after (now : AwareDT) (k : Z) : Z := (wall now / DAY + k + 3) mod 7.



(** The order [list.sort(key=lambda x: x.scheduled_datetime)] sorts by. *)
Definition sched_le (a b : HomeworkAssignment) : Prop :=
  scheduled_datetime a <= scheduled_datetime b.

(** The sum of a list of counts. *)
Definition sumZ (l : list Z) : Z := fold_right Z.add 0 l.

(** How many times [k] occurs in [keys]. *)
Definition occurrences (keys : list string) (k : string) : Z :=
  Z.of_nat (count_occ string_dec keys k).

(** Every save of the course file succeeds. *)
Definition save_courses_ok : PyDict.dict Course.CourseConfig -> option string := fun _ => None.

(** A roster row that passes every check against [cs_known]. *)
Definition roster_ok_row : DictRow :=
  mk_row [("email", "ana@example.com"); ("name", "Ana"); ("discord_handle", " Ana_L ");
          ("course_name", "known")].

(* ================================================================== *)
(** * Properties *)

(** ** Dictionary lemmas *)

Lemma PyDict_get_set_same {V} (k : string) (v : V) (d : PyDict.dict V) :
  PyDict.get k (PyDict.set k v d) = Some v.
Proof.
  induction d as [|[k' v'] d IH]; simpl.
  - now rewrite String.eqb_refl.
  - destruct (String.eqb k k') eqn:E; simpl; rewrite E; auto.
Qed.

Lemma PyDict_get_set_other {V} (k k2 : string) (v : V) (d : PyDict.dict V) :
  k2 <> k -> PyDict.get k2 (PyDict.set k v d) = PyDict.get k2 d.
Proof.
  intros Hne. induction d as [|[k' v'] d IH]; simpl.
  - destruct (String.eqb_spec k2 k); congruence.
  - destruct (String.eqb_spec k k') as [->|Hk]; simpl.
    + destruct (String.eqb_spec k2 k'); congruence.
    + rewrite IH. reflexivity.
Qed.

Lemma PyDict_mem_set {V} (k k2 : string) (v : V) (d : PyDict.dict V) :
  PyDict.mem k2 d = true -> PyDict.mem k2 (PyDict.set k v d) = true.
Proof.
  unfold PyDict.mem. destruct (String.eqb_spec k2 k) as [->|Hne].
  - now rewrite PyDict_get_set_same.
  - now rewrite PyDict_get_set_other.
Qed.


(** ** C5: activity tiers *)

(** C5. The tier of a [StudentActivity] depends on [messages_last_week]
    alone (two activities with the same recent count have the same tier,
    whatever their totals): a recent count of 0 is "At Risk", 1 or 2 is
    "Low Activity", 3 or more is "Active". *)
Theorem activity_tier_by_recent_count :
  forall sa sa' : Course.StudentActivity,
    (Course.messages_last_week sa = Course.messages_last_week sa' ->
     Course.activity_tier sa = Course.activity_tier sa') /\
    (Course.messages_last_week sa = 0 -> Course.activity_tier sa = "At Risk") /\
    (0 < Course.messages_last_week sa < 3 -> Course.activity_tier sa = "Low Activity") /\
    (3 <= Course.messages_last_week sa -> Course.activity_tier sa = "Active").
Proof.
  intros sa sa'. unfold Course.activity_tier.
  repeat split; intros H.
  - now rewrite H.
  - now rewrite H.
  - destruct (Z.eqb_spec (Course.messages_last_week sa) 0); [lia|].
    destruct (Z.ltb_spec (Course.messages_last_week sa) 3); [reflexivity|lia].
  - destruct (Z.eqb_spec (Course.messages_last_week sa) 0); [lia|].
    destruct (Z.ltb_spec (Course.messages_last_week sa) 3); [lia|reflexivity].
Qed.

Lemma activity_tier_by_recent_count_witness :
  Course.activity_tier (sample_activity 50 0) = "At Risk" /\
  Course.activity_tier (sample_activity 2 2) = "Low Activity" /\
  Course.activity_tier (sample_activity 3 3) = "Active".
Proof.
  split; [|split].
  - apply (proj1 (proj2 (activity_tier_by_recent_count (sample_activity 50 0) (sample_activity 50 0)))).
    reflexivity.
  - apply (proj1 (proj2 (proj2 (activity_tier_by_recent_count (sample_activity 2 2) (sample_activity 2 2))))).
    simpl; lia.
  - apply (proj2 (proj2 (proj2 (activity_tier_by_recent_count (sample_activity 3 3) (sample_activity 3 3))))).
    simpl; lia.
Defined.

(** ** C1: [mark_assignment_posted] and [mark_assignment_failed] *)

(** C1 (counterexample). After [mark_assignment_posted] on a pending
    assignment, [mark_assignment_failed] on the same id succeeds and the
    status becomes "failed": the second call is not a no-op. *)
Lemma mark_failed_after_posted_overwrites :
  let s0 := store_of [sample_assignment "hw1" 100] in
  match mark_assignment_posted save_ok "hw1" 7 (200 * SECOND) s0 with
  | (s1, Ok true) =>
      status_in "hw1" s1 = Some "posted" /\
      mark_assignment_failed save_ok "hw1" "boom" s1 =
        (fst (mark_assignment_failed save_ok "hw1" "boom" s1), Ok true) /\
      status_in "hw1" (fst (mark_assignment_failed save_ok "hw1" "boom" s1)) = Some "failed"
  | _ => False
  end.
Proof. vm_compute. repeat split. Qed.

(** C1 (amended). Both calls return [false] and leave the state as it is
    for an unknown id. For a known id they rewrite the assignment whatever
    its current status: [mark_assignment_posted] to status "posted" (with
    [posted_at], [thread_id], no error) and [mark_assignment_failed] to
    status "failed" with the given message; the in-memory change stays even
    when the save that follows raises, and the call returns [true] when the
    save succeeds. *)
Theorem mark_assignment_transitions_unconditional :
  forall (save : assignments -> option string) (hid : string) (tid now : Z) (msg : string) (s : HW),
    (PyDict.get hid (hw_assignments s) = None ->
       mark_assignment_posted save hid tid now s = (s, Ok false) /\
       mark_assignment_failed save hid msg s = (s, Ok false)) /\
    (forall a, PyDict.get hid (hw_assignments s) = Some a ->
       PyDict.get hid (hw_assignments (fst (mark_assignment_posted save hid tid now s)))
         = Some (set_posted a now tid) /\
       status (set_posted a now tid) = "posted" /\
       PyDict.get hid (hw_assignments (fst (mark_assignment_failed save hid msg s)))
         = Some (set_failed a msg) /\
       status (set_failed a msg) = "failed" /\
       (save (PyDict.set hid (set_posted a now tid) (hw_assignments s)) = None ->
          snd (mark_assignment_posted save hid tid now s) = Ok true) /\
       (save (PyDict.set hid (set_failed a msg) (hw_assignments s)) = None ->
          snd (mark_assignment_failed save hid msg s) = Ok true)).
Proof.
  intros save hid tid now msg [d saved]; simpl.
  unfold mark_assignment_posted, mark_assignment_failed, bind, get_store, put_store,
    save_homework_assignments, ret; simpl.
  split.
  - intros H. rewrite H. auto.
  - intros a H. rewrite H.
    destruct (save (PyDict.set hid (set_posted a now tid) d)) eqn:Ep;
    destruct (save (PyDict.set hid (set_failed a msg) d)) eqn:Ef; simpl;
    rewrite !PyDict_get_set_same; repeat split; intros; discriminate.
Qed.

Lemma mark_assignment_transitions_unconditional_witness :
  let s0 := store_of [set_posted (sample_assignment "hw1" 100) (200 * SECOND) 7] in
  PyDict.get "hw1" (hw_assignments (fst (mark_assignment_failed save_ok "hw1" "boom" s0)))
    = Some (set_failed (set_posted (sample_assignment "hw1" 100) (200 * SECOND) 7) "boom").
Proof.
  intros s0.
  apply (proj2 (mark_assignment_transitions_unconditional save_ok "hw1" 7 0 "boom" s0)
           (set_posted (sample_assignment "hw1" 100) (200 * SECOND) 7)).
  reflexivity.
Defined.

(** ** C2: the scheduler's due list *)

(** The due list of the scheduler loop holds exactly the pending
    assignments scheduled at or before [now], in store order. *)
Lemma due_assignments_spec (now : Z) (d : assignments) (a : HomeworkAssignment) :
  In a (due_assignments now d) <->
  In a (PyDict.values d) /\ status a = "pending" /\ scheduled_datetime a <= now.
Proof.
  unfold due_assignments, is_due. rewrite filter_In, andb_true_iff, String.eqb_eq, Z.leb_le.
  tauto.
Qed.

(** C2 (code_bug). Two pending assignments stored in the order
    [t = 200 s], [t = 100 s] and both due at [now = 300 s]: the loop's due
    list comes in store order, [200; 100], while [get_overdue_assignments]
    sorts the same assignments to [100; 200]. *)
Theorem scheduler_due_list_not_sorted :
  let d := hw_assignments (store_of [sample_assignment "late" 200; sample_assignment "early" 100]) in
  map scheduled_datetime (due_assignments (300 * SECOND) d) = [200 * SECOND; 100 * SECOND] /\
  map scheduled_datetime (get_overdue_assignments (300 * SECOND) d) = [100 * SECOND; 200 * SECOND].
Proof. vm_compute. split; reflexivity. Qed.

(** ** C4: failures inside the scheduler loop *)

Lemma no_cancel_ret {A} (a : A) : no_cancel (ret a).
Proof. intros s; discriminate. Qed.

Lemma no_cancel_raise_exc {A} (msg : string) : no_cancel (A := A) (raise (Exc msg)).
Proof. intros s; discriminate. Qed.

Lemma no_cancel_bind {A B} (m : M A) (k : A -> M B) :
  no_cancel m -> (forall a, no_cancel (k a)) -> no_cancel (bind m k).
Proof.
  intros Hm Hk s. unfold bind. specialize (Hm s).
  destruct (m s) as [s' [a|e]]; [apply Hk|].
  simpl in *. intros He. injection He as ->. now apply Hm.
Qed.

Lemma no_cancel_try_except {A} (m : M A) (h : string -> M A) :
  no_cancel m -> (forall msg, no_cancel (h msg)) -> no_cancel (try_except m h).
Proof.
  intros Hm Hh s. unfold try_except. specialize (Hm s).
  destruct (m s) as [s' [a|[msg|]]]; [exact Hm|apply Hh|exact Hm].
Qed.

Lemma no_cancel_save (save : assignments -> option string) :
  no_cancel (save_homework_assignments save).
Proof. intros s. unfold save_homework_assignments. destruct (save _); discriminate. Qed.

#[local] Hint Resolve no_cancel_ret no_cancel_raise_exc no_cancel_bind no_cancel_try_except
  no_cancel_save : no_cancel.

Lemma no_cancel_get_store : no_cancel get_store.
Proof. intros s; discriminate. Qed.

Lemma no_cancel_put_store d : no_cancel (put_store d).
Proof. intros s; discriminate. Qed.

#[local] Hint Resolve no_cancel_get_store no_cancel_put_store : no_cancel.

Lemma no_cancel_mark_posted save hid t now : no_cancel (mark_assignment_posted save hid t now).
Proof.
  unfold mark_assignment_posted. apply no_cancel_bind; auto with no_cancel.
  intros d. destruct (PyDict.get hid d); auto 6 with no_cancel.
Qed.

Lemma no_cancel_mark_failed save hid msg : no_cancel (mark_assignment_failed save hid msg).
Proof.
  unfold mark_assignment_failed. apply no_cancel_bind; auto with no_cancel.
  intros d. destruct (PyDict.get hid d); auto 6 with no_cancel.
Qed.

#[local] Hint Resolve no_cancel_mark_posted no_cancel_mark_failed : no_cancel.

Lemma no_cancel_post save discord pnow a : no_cancel (post_homework_assignment save discord pnow a).
Proof.
  unfold post_homework_assignment. destruct (discord a); auto 6 with no_cancel.
Qed.

#[local] Hint Resolve no_cancel_post : no_cancel.

Lemma no_cancel_process_due save discord pnow due : no_cancel (process_due save discord pnow due).
Proof. induction due; simpl; auto 7 with no_cancel. Qed.

Lemma process_due_cons save discord pnow a rest s :
  process_due save discord pnow (a :: rest) s =
  match try_except (post_homework_assignment save discord pnow a)
          (fun m => mark_assignment_failed save (homework_id a) m ;;; ret tt) s with
  | (s', Ok _) => process_due save discord pnow rest s'
  | (s', Raise e) => (s', Raise e)
  end.
Proof. reflexivity. Qed.

(** C4 (amended). Every pass of the scheduler loop that is not cancelled
    ends in its 60 s sleep and goes round again, whatever raised inside it.
    In the batch, when posting an assignment raises [Exception(m)] it is
    marked failed with message [m] (the in-memory change happens before the
    save); if that marking returns, the batch goes on with the next due
    assignment from the resulting state; if the marking itself raises (its
    save fails), the exception leaves the per-assignment handler and the
    rest of the batch is skipped in this pass. *)
Theorem scheduler_post_failure_handling :
  forall (save : assignments -> option string) (discord : HomeworkAssignment -> DiscordOutcome)
         (now pnow : Z),
    (forall s, exists s', scheduler_iteration save discord now pnow false s = (s', Ok Continue)) /\
    (forall a rest s s1 m,
       post_homework_assignment save discord pnow a s = (s1, Raise (Exc m)) ->
       (forall a0, PyDict.get (homework_id a) (hw_assignments s1) = Some a0 ->
          PyDict.get (homework_id a)
            (hw_assignments (fst (mark_assignment_failed save (homework_id a) m s1)))
          = Some (set_failed a0 m)) /\
       (forall s2 b, mark_assignment_failed save (homework_id a) m s1 = (s2, Ok b) ->
          process_due save discord pnow (a :: rest) s = process_due save discord pnow rest s2) /\
       (forall s2 e, mark_assignment_failed save (homework_id a) m s1 = (s2, Raise e) ->
          process_due save discord pnow (a :: rest) s = (s2, Raise e))).
Proof.
  intros save discord now pnow. split.
  - intros s. unfold scheduler_iteration.
    pose proof (no_cancel_bind _ _ no_cancel_get_store
                  (fun d => no_cancel_bind _ (fun _ => sleep60 false)
                              (no_cancel_process_due save discord pnow (due_assignments now d))
                              (fun _ => no_cancel_ret tt)) s) as Hn.
    destruct ((d <-- get_store ;; process_due save discord pnow (due_assignments now d) ;;;
               sleep60 false) s) as [s' [x|[msg|]]] eqn:E.
    + eauto.
    + eexists. reflexivity.
    + simpl in Hn. congruence.
  - intros a rest s s1 m Hpost. split; [|split].
    + intros a0 Ha0. destruct s1 as [d saved]. simpl in Ha0 |- *.
      unfold mark_assignment_failed, bind, get_store, put_store, save_homework_assignments; simpl.
      rewrite Ha0. destruct (save _); simpl; apply PyDict_get_set_same.
    + intros s2 b Hm. rewrite process_due_cons. unfold try_except, bind.
      rewrite Hpost, Hm. reflexivity.
    + intros s2 e Hm. rewrite process_due_cons. unfold try_except, bind.
      rewrite Hpost, Hm. reflexivity.
Qed.

Lemma scheduler_post_failure_handling_witness :
  let s0 := store_of [sample_assignment "hwA" 100; sample_assignment "hwB" 200] in
  process_due save_ok discord_fail_first 0
    [sample_assignment "hwA" 100; sample_assignment "hwB" 200] s0 =
  process_due save_ok discord_fail_first 0 [sample_assignment "hwB" 200]
    (fst (mark_assignment_failed save_ok "hwA" "Discord API error: 503 Service Unavailable" s0)).
Proof.
  intros s0.
  apply (proj2 (scheduler_post_failure_handling save_ok discord_fail_first 0 0)
           (sample_assignment "hwA" 100) [sample_assignment "hwB" 200] s0 s0
           "Discord API error: 503 Service Unavailable" eq_refl)
    with (b := true).
  vm_compute. reflexivity.
Defined.

(** C4 (counterexample). Two due assignments; posting the first raises
    and every save fails. The first is marked failed in memory, the save
    of that marking raises, and the pass ends without touching the second,
    which Discord would have accepted: it is still pending. *)
Lemma scheduler_failed_mark_skips_batch :
  let s0 := store_of [sample_assignment "hwA" 100; sample_assignment "hwB" 200] in
  let '(s1, r) := scheduler_iteration save_disk_full discord_fail_first
                    (300 * SECOND) (300 * SECOND) false s0 in
  r = Ok Continue /\
  status_in "hwA" s1 = Some "failed" /\
  status_in "hwB" s1 = Some "pending" /\
  discord_fail_first (sample_assignment "hwB" 200) = ThreadCreated 9.
Proof. vm_compute. repeat split. Qed.

(** ** C6 and C7: next daily and weekly occurrences *)

Lemma DAY_value : DAY = 86400000000.
Proof. reflexivity. Qed.

Lemma floor_day_bounds (w : Z) : floor_day w <= w < floor_day w + DAY.
Proof.
  unfold floor_day. rewrite DAY_value.
  pose proof (Z.div_mod w 86400000000 ltac:(lia)).
  pose proof (Z.mod_pos_bound w 86400000000 ltac:(lia)). lia.
Qed.

Lemma replace_hm_valid (t : AwareDT) (h m : Z) :
  0 <= h <= 23 -> 0 <= m <= 59 ->
  replace_hm t h m = Some (mkAware (floor_day (wall t) + h * HOUR + m * MINUTE) (utcoffset t)).
Proof.
  intros Hh Hm. unfold replace_hm.
  replace ((0 <=? h) && (h <=? 23) && (0 <=? m) && (m <=? 59)) with true; [reflexivity|].
  symmetry. rewrite !andb_true_iff, !Z.leb_le. lia.
Qed.

(** C6. For an hour in 0..23 and a minute in 0..59 and any "now" in the
    zone, [calculate_next_daily_occurrence] returns, with the same tzinfo,
    today's [hour:minute] when it is strictly later than now and that time
    one day later otherwise; the result is strictly after now, as a
    wall-clock reading and as a UTC instant. *)
Theorem next_daily_strictly_future :
  forall (hour minute : Z) (now : AwareDT),
    0 <= hour <= 23 -> 0 <= minute <= 59 ->
    exists r,
      calculate_next_daily_occurrence hour minute now = Some r /\
      utcoffset r = utcoffset now /\
      (wall now < floor_day (wall now) + hour * HOUR + minute * MINUTE ->
         wall r = floor_day (wall now) + hour * HOUR + minute * MINUTE) /\
      (floor_day (wall now) + hour * HOUR + minute * MINUTE <= wall now ->
         wall r = floor_day (wall now) + hour * HOUR + minute * MINUTE + DAY) /\
      wall now < wall r /\ to_utc now < to_utc r.
Proof.
  intros hour minute now Hh Hm.
  unfold calculate_next_daily_occurrence. rewrite replace_hm_valid by assumption.
  unfold le_same_tz; simpl.
  pose proof (floor_day_bounds (wall now)) as Hb.
  unfold to_utc, add_days, DAY, HOUR, MINUTE, SECOND in *.
  destruct (Z.leb_spec (floor_day (wall now) + hour * (60 * (60 * 1000000))
                          + minute * (60 * 1000000)) (wall now)) as [Hle|Hgt];
    eexists; (split; [reflexivity|]); cbn [wall utcoffset]; repeat split; intros; lia.
Qed.

Lemma next_daily_strictly_future_witness :
  exists r, calculate_next_daily_occurrence 9 30 (astimezone us_pacific_offset (1710270000 * SECOND))
            = Some r /\ to_utc (astimezone us_pacific_offset (1710270000 * SECOND)) < to_utc r.
Proof.
  destruct (next_daily_strictly_future 9 30 (astimezone us_pacific_offset (1710270000 * SECOND))
              ltac:(lia) ltac:(lia)) as [r (Hr & _ & _ & _ & _ & Hu)].
  exists r. split; assumption.
Defined.

(** C7. For a weekday in 0..6 (0 = Monday) and a valid hour and minute,
    [calculate_next_weekly_occurrence] returns today's [hour:minute]
    moved by [k] days, where [k] is the first day offset whose weekday is
    the target and whose time is strictly after now; in particular, when
    today is the target weekday and the time has passed (or is now), it is
    today's time plus exactly 7 days, never plus 0. *)
Theorem next_weekly_occurrence :
  forall (hour minute day_of_week : Z) (now : AwareDT),
    0 <= hour <= 23 -> 0 <= minute <= 59 -> 0 <= day_of_week <= 6 ->
    exists r,
      calculate_next_weekly_occurrence hour minute day_of_week now = Some r /\
      utcoffset r = utcoffset now /\
      (weekday now = day_of_week ->
       floor_day (wall now) + (hour * HOUR + minute * MINUTE) <= wall now ->
       wall r = floor_day (wall now) + (hour * HOUR + minute * MINUTE) + 7 * DAY) /\
      exists k,
        0 <= k <= 7 /\
        wall r = floor_day (wall now) + (hour * HOUR + minute * MINUTE) + k * DAY /\
        weekday r = day_of_week /\ wall now < wall r /\
        (forall j, 0 <= j < k ->
           weekday_after now j <> day_of_week \/
           floor_day (wall now) + (hour * HOUR + minute * MINUTE) + j * DAY <= wall now).
Proof.
  intros hour minute dow now Hh Hm Hd.
  unfold calculate_next_weekly_occurrence. rewrite replace_hm_valid by assumption.
  unfold le_same_tz, weekday, weekday_after, add_days. cbn [wall utcoffset].
  pose proof (floor_day_bounds (wall now)) as Hb.
  set (n := wall now / DAY) in *.
  assert (Hf : floor_day (wall now) = n * DAY) by reflexivity.
  rewrite Hf in *.
  replace (n * DAY + hour * HOUR + minute * MINUTE)
    with (n * DAY + (hour * HOUR + minute * MINUTE)) by lia.
  set (tod := hour * HOUR + minute * MINUTE) in *.
  assert (Htod : 0 <= tod < DAY) by (unfold tod; rewrite DAY_value; unfold HOUR, MINUTE, SECOND; lia).
  set (wd := (n + 3) mod 7) in *.
  pose proof (Z.div_mod (n + 3) 7 ltac:(lia)) as Ewd.
  pose proof (Z.mod_pos_bound (n + 3) 7 ltac:(lia)) as Bwd.
  fold wd in Ewd, Bwd.
  set (da := (dow - wd + 7) mod 7) in *.
  pose proof (Z.div_mod (dow - wd + 7) 7 ltac:(lia)) as Eda.
  pose proof (Z.mod_pos_bound (dow - wd + 7) 7 ltac:(lia)) as Bda.
  fold da in Eda, Bda.
  assert (Hwk : forall k, ((n * DAY + tod + k * DAY) / DAY + 3) mod 7 = (n + k + 3) mod 7).
  { intros k. f_equal. f_equal. symmetry. apply Z.div_unique_pos with tod; [exact Htod|].
    lia. }
  assert (Hday : forall j, (n + j + 3) mod 7 = dow <-> (wd + j) mod 7 = dow).
  { intros j. replace (n + j + 3) with (n + 3 + j) by lia.
    rewrite <- (Z.add_mod_idemp_l (n + 3) j 7) by lia. fold wd. reflexivity. }
  assert (Hmin : forall j, 0 <= j < da -> (wd + j) mod 7 <> dow).
  { intros j Hj Hc.
    pose proof (Z.div_mod (wd + j) 7 ltac:(lia)).
    pose proof (Z.mod_pos_bound (wd + j) 7 ltac:(lia)). lia. }
  assert (Hat : (wd + da) mod 7 = dow).
  { pose proof (Z.div_mod (wd + da) 7 ltac:(lia)).
    pose proof (Z.mod_pos_bound (wd + da) 7 ltac:(lia)). lia. }
  assert (Hk : forall k, 0 <= k <= 7 -> (wd + k) mod 7 = dow ->
            (forall j, 0 <= j < k -> (wd + j) mod 7 <> dow \/ n * DAY + tod + j * DAY <= wall now) ->
            n * DAY + tod + k * DAY > wall now ->
            exists r, Some (mkAware (n * DAY + tod + k * DAY) (utcoffset now)) = Some r /\
              utcoffset r = utcoffset now /\
              (wd = dow -> n * DAY + tod <= wall now -> wall r = n * DAY + tod + 7 * DAY) /\
              exists k', 0 <= k' <= 7 /\ wall r = n * DAY + tod + k' * DAY /\
                ((wall r / DAY + 3) mod 7 = dow) /\ wall now < wall r /\
                (forall j, 0 <= j < k' -> (n + j + 3) mod 7 <> dow \/ n * DAY + tod + j * DAY <= wall now)).
  { intros k Hk7 Hkw Hkmin Hkf. eexists. split; [reflexivity|]. cbn [wall utcoffset].
    split; [reflexivity|]. split.
    - intros Hw Hle. f_equal. f_equal.
      (* today is the target weekday and today's time has passed: k = 7 *)
      destruct (Z.eq_dec k 7) as [->|Hk7']; [reflexivity|].
      destruct (Z.eq_dec k 0) as [->|Hk0]; [lia|].
      exfalso. rewrite <- Hw in Hkw.
      pose proof (Z.div_mod (wd + k) 7 ltac:(lia)).
      pose proof (Z.mod_pos_bound (wd + k) 7 ltac:(lia)). lia.
    - exists k. split; [exact Hk7|]. split; [reflexivity|]. split.
      + rewrite Hwk, Hday. exact Hkw.
      + split; [lia|]. intros j Hj. rewrite Hday. apply Hkmin. exact Hj. }
  destruct (Z.eqb_spec da 0) as [Hda0|Hda0];
  destruct (Z.leb_spec (n * DAY + tod) (wall now)) as [Hle|Hgt]; cbn [andb].
  - apply Hk.
    + lia.
    + replace (wd + 7) with (wd + da + 1 * 7) by lia. rewrite Z.mod_add by lia. exact Hat.
    + intros j Hj. destruct (Z.eqb_spec j 0) as [->|Hj0]; [right; lia|].
      left. intros Hc.
      pose proof (Z.div_mod (wd + j) 7 ltac:(lia)).
      pose proof (Z.mod_pos_bound (wd + j) 7 ltac:(lia)).
      rewrite Hda0 in Eda. lia.
    + rewrite DAY_value in *. lia.
  - apply Hk.
    + lia.
    + exact Hat.
    + intros j Hj. lia.
    + lia.
  - apply Hk; [lia|exact Hat| |rewrite DAY_value in *; lia].
    intros j Hj. left. apply Hmin. exact Hj.
  - apply Hk; [lia|exact Hat| |rewrite DAY_value in *; lia].
    intros j Hj. left. apply Hmin. exact Hj.
Qed.

Lemma next_weekly_occurrence_witness :
  exists r,
    calculate_next_weekly_occurrence 9 0 1 (astimezone us_pacific_offset (1710270000 * SECOND))
      = Some r /\
    wall r = floor_day (wall (astimezone us_pacific_offset (1710270000 * SECOND)))
             + (9 * HOUR + 0 * MINUTE) + 7 * DAY.
Proof.
  destruct (next_weekly_occurrence 9 0 1 (astimezone us_pacific_offset (1710270000 * SECOND))
              ltac:(lia) ltac:(lia) ltac:(lia)) as [r (Hr & _ & H7 & _)].
  exists r. split; [exact Hr|]. apply H7; vm_compute; [reflexivity|discriminate].
Defined.

(** ** C3: the health check's recent window *)

(** The boundaries in general: the recent one is the wall-clock midnight
    of the day 7 days before now, turned into an instant with the UTC
    offset in force *now*; the total one is exactly 30 days before now. *)
Lemma health_check_windows (pacific : Z -> Z) (now_utc : Z) :
  week_start_utc pacific now_utc
    = floor_day (now_utc + pacific now_utc - 7 * DAY) - pacific now_utc /\
  month_start_utc pacific now_utc = now_utc - 30 * DAY.
Proof.
  unfold week_start_utc, month_start_utc, to_utc, add_days, astimezone; cbn [wall utcoffset].
  split; [reflexivity | lia].
Qed.

(** An attributed message adds one to the recent count exactly when its
    timestamp is at or after the boundary. *)
Lemma count_message_week (week_start created_at : Z) (act : Activity) :
  week (count_message week_start created_at act)
    = if week_start <=? created_at then week act + 1 else week act.
Proof. reflexivity. Qed.

(** C3 (code_bug). On 2024-03-12 19:00 UTC (12:00 PDT), after the switch
    to daylight time on 2024-03-10, the recent window starts at
    2024-03-05 07:00 UTC, whose Pacific reading is 23:00 on 2024-03-04;
    Pacific midnight of 2024-03-05 is 08:00 UTC. A message at 07:30 UTC
    (23:30 on 2024-03-04 in Pacific time) is counted as recent. *)
Theorem health_check_week_start_off_by_dst :
  let now_utc := 1710270000 * SECOND in
  let b := week_start_utc us_pacific_offset now_utc in
  let midnight := floor_day (wall (add_days (astimezone us_pacific_offset now_utc) (-7))) in
  b = 1709622000 * SECOND /\
  wall (astimezone us_pacific_offset b) = midnight - HOUR /\
  wall (astimezone us_pacific_offset (1709625600 * SECOND)) = midnight /\
  wall (astimezone us_pacific_offset (1709623800 * SECOND)) < midnight /\
  week (count_message b (1709623800 * SECOND) (mkActivity 0 0 None)) = 1 /\
  b <> now_utc - 7 * DAY.
Proof. vm_compute. repeat split; discriminate. Qed.

(** ** C8 and C10: homework uploads *)

Section UploadProofs.

Variable loc : Z -> string + Z.
Variable course : string.
Variable fc : Z.








Section UploadRuns.

Variable save : assignments -> option string.
Variable set_repr : list string -> string.




End UploadRuns.

End UploadProofs.




(** A row dated 0001-01-01 passes validation but [localize] overflows on
    it: both uploads skip it with the same "Error processing" warning. *)
Lemma reupload_year_one_row :
  let up := upload_homework_schedule pst_localize save_ok set_repr_listed "Spanish"
              required_homework_columns [row_year_one] 42 in
  up (store_of []) = (store_of [], Ok (false, "No valid homework assignments found in CSV",
                       ["Row 2: Error processing - date value out of range, skipping"])) /\
  up (fst (up (store_of []))) = up (store_of []).
Proof. vm_compute. split; reflexivity. Qed.


(** ** C9: roster loads *)

Section RosterProofs.

Variable required_order : list string.

Lemma check_required_prefix n row fs e :
  Course.check_required n row fs = Some e -> exists r, e = row_prefix n ++ r.
Proof.
  induction fs as [|f fs IH]; simpl; [discriminate|].
  destruct (row_get row f "") as [v|].
  - destruct (String.eqb (py_strip v) ""); [|exact IH].
    intros H. injection H as <-. eexists. reflexivity.
  - intros H. injection H as <-. eexists. reflexivity.
Qed.

Lemma roster_row_prefix courses n row e :
  Course.roster_row required_order courses n row = inl e -> exists r, e = row_prefix n ++ r.
Proof.
  unfold Course.roster_row.
  destruct (Course.check_required n row required_order) as [e'|] eqn:Ec.
  - intros H. injection H as <-. exact (check_required_prefix _ _ _ _ Ec).
  - destruct (Course.get_course courses _).
    + destruct (row_get row "enrolled_date" ""), (row_get row "status" "pending");
        try discriminate; intros H; injection H as <-; eexists; reflexivity.
    + intros H. injection H as <-. eexists. reflexivity.
Qed.

(** A row whose course is not configured fails; once its fields pass the
    check, with the "not configured" message. *)
Lemma roster_row_unconfigured courses n row :
  Course.get_course courses (py_strip (Course.row_value row "course_name")) = None ->
  exists e, Course.roster_row required_order courses n row = inl e /\
    (Course.check_required n row required_order = None ->
     e = row_prefix n ++ "Course '" ++ py_strip (Course.row_value row "course_name")
         ++ "' not configured. Use `!course add` to create it first.").
Proof.
  intros Hc. unfold Course.roster_row.
  destruct (Course.check_required n row required_order) as [e'|] eqn:Ec.
  - exists e'. split; [reflexivity|discriminate].
  - rewrite Hc. eexists. split; [reflexivity|intros _; reflexivity].
Qed.

(** The load of the rows stops at the first row that fails, with its
    message. *)
Lemma roster_rows_first_failure courses n rows i row e :
  nth_error rows i = Some row ->
  Course.roster_row required_order courses (n + Z.of_nat i) row = inl e ->
  exists k row_k msg, (k <= i)%nat /\ nth_error rows k = Some row_k /\
    Course.roster_row required_order courses (n + Z.of_nat k) row_k = inl msg /\
    Course.roster_rows required_order courses n rows = inl msg /\
    (forall j r, (j < k)%nat -> nth_error rows j = Some r ->
       exists st, Course.roster_row required_order courses (n + Z.of_nat j) r = inr st).
Proof.
  revert n i. induction rows as [|r0 rest IH]; intros n i Hi Hrow.
  - destruct i; discriminate.
  - simpl. destruct (Course.roster_row required_order courses n r0) as [m|st] eqn:E0.
    + exists 0%nat, r0, m. rewrite Z.add_0_r. repeat split; try reflexivity; try lia.
      exact E0.
    + destruct i as [|i].
      * simpl in Hi. injection Hi as <-. rewrite Z.add_0_r in Hrow. congruence.
      * simpl in Hi.
        assert (Hrow' : Course.roster_row required_order courses (n + 1 + Z.of_nat i) row = inl e).
        { rewrite <- Hrow. f_equal. lia. }
        destruct (IH (n + 1) i Hi Hrow') as (k & row_k & msg & Hk & Hnk & Hrk & Hrs & Hpre).
        exists (S k), row_k, msg. rewrite Hrs. repeat split.
        -- lia.
        -- exact Hnk.
        -- rewrite <- Hrk. f_equal. lia.
        -- intros [|j] r Hj Hr.
           ++ simpl in Hr. injection Hr as <-. exists st. rewrite Z.add_0_r. exact E0.
           ++ simpl in Hr. destruct (Hpre j r ltac:(lia) Hr) as [st' Hst'].
              exists st'. rewrite <- Hst'. f_equal. lia.
Qed.

End RosterProofs.

(** C9 (counterexample): row 2 has a blank email, row 3 names the
    unconfigured course "Unknown". The load fails and the roster is kept,
    but the error names row 2, not the row with the unconfigured course. *)
Lemma roster_error_names_earlier_row :
  Course.load_roster_from_text Course.required_roster_columns set_repr_listed
    Course.required_roster_columns [roster_blank_email; roster_unknown_course] cs_known
  = (cs_known, (false, "Row 2: email cannot be empty")).
Proof. vm_compute. reflexivity. Qed.

(** C9 (amended): if a row (row number [2 + i]) names a course that is
    not configured, the load fails and the state (registry and roster) is
    unchanged, so no student of the upload is added. The message is
    "Missing required columns: ..." when the header lacks a required
    column; otherwise it is the error of the first failing row, numbered
    [2 + k] with [k <= i] and starting with "Row 2+k: ": every earlier row
    passes, and when that row is the one with the unconfigured course and
    its required fields are filled, the message is "Row n: Course '...'
    not configured. Use `!course add` to create it first.". *)
Theorem roster_unconfigured_course_rejects required_order set_repr fieldnames rows cs i row :
  nth_error rows i = Some row ->
  Course.get_course (Course.cs_courses cs) (py_strip (Course.row_value row "course_name")) = None ->
  exists msg,
    Course.load_roster_from_text required_order set_repr fieldnames rows cs = (cs, (false, msg)) /\
    ((has_columns Course.required_roster_columns fieldnames = false /\
      msg = "Missing required columns: "
            ++ set_repr (missing_columns Course.required_roster_columns fieldnames)) \/
     (has_columns Course.required_roster_columns fieldnames = true /\
      exists k row_k, (k <= i)%nat /\ nth_error rows k = Some row_k /\
        Course.roster_row required_order (Course.cs_courses cs) (2 + Z.of_nat k) row_k = inl msg /\
        (exists rest, msg = row_prefix (2 + Z.of_nat k) ++ rest) /\
        (forall j r, (j < k)%nat -> nth_error rows j = Some r ->
           exists st, Course.roster_row required_order (Course.cs_courses cs) (2 + Z.of_nat j) r
                      = inr st) /\
        (k = i -> Course.check_required (2 + Z.of_nat i) row required_order = None ->
         msg = row_prefix (2 + Z.of_nat i) ++ "Course '"
               ++ py_strip (Course.row_value row "course_name")
               ++ "' not configured. Use `!course add` to create it first."))).
Proof.
  intros Hi Hc. unfold Course.load_roster_from_text.
  destruct (has_columns Course.required_roster_columns fieldnames) eqn:Hcols; simpl.
  - destruct (roster_row_unconfigured required_order _ (2 + Z.of_nat i) row Hc) as (e & He & Hmsg).
    destruct (roster_rows_first_failure required_order _ 2 rows i row e Hi He)
      as (k & row_k & msg & Hk & Hnk & Hrk & Hrs & Hpre).
    exists msg. rewrite Hrs. split; [reflexivity|right].
    split; [reflexivity|]. exists k, row_k. repeat split; try assumption.
    + exact (roster_row_prefix required_order _ _ _ _ Hrk).
    + intros -> Hreq. rewrite Hi in Hnk. injection Hnk as <-.
      rewrite Hrk in He. injection He as <-. exact (Hmsg Hreq).
  - eexists. split; [reflexivity|left]. split; reflexivity.
Qed.

Lemma roster_unconfigured_course_rejects_witness :
  nth_error [roster_blank_email; roster_unknown_course] 1 = Some roster_unknown_course /\
  Course.get_course (Course.cs_courses cs_known)
    (py_strip (Course.row_value roster_unknown_course "course_name")) = None /\
  exists msg,
    Course.load_roster_from_text Course.required_roster_columns set_repr_listed
      Course.required_roster_columns [roster_blank_email; roster_unknown_course] cs_known
    = (cs_known, (false, msg)).
Proof.
  split; [reflexivity|]. split; [vm_compute; reflexivity|].
  destruct (roster_unconfigured_course_rejects Course.required_roster_columns set_repr_listed
              Course.required_roster_columns [roster_blank_email; roster_unknown_course] cs_known
              1 roster_unknown_course) as (msg & Hload & _).
  - reflexivity.
  - vm_compute. reflexivity.
  - exists msg. exact Hload.
Defined.

(* ================================================================== *)
(** * Further properties of the code *)

(** ** Sorting by scheduled time *)

Lemma insert_by_sched_perm a l : Permutation (insert_by_sched a l) (a :: l).
Proof.
  induction l as [|b l IH]; simpl; [reflexivity|].
  destruct (scheduled_datetime b <=? scheduled_datetime a); [|reflexivity].
  rewrite IH. apply perm_swap.
Qed.

Lemma insert_by_sched_ssorted a l :
  StronglySorted sched_le l -> StronglySorted sched_le (insert_by_sched a l).
Proof.
  induction l as [|b l IH]; intros H; simpl.
  - repeat constructor.
  - apply StronglySorted_inv in H as [Hl Hb].
    destruct (Z.leb_spec (scheduled_datetime b) (scheduled_datetime a)) as [Hba|Hab].
    + constructor; [now apply IH|].
      rewrite Forall_forall in Hb |- *. intros x Hx.
      apply (Permutation_in _ (insert_by_sched_perm a l)) in Hx. destruct Hx as [<-|Hx].
      * exact Hba.
      * now apply Hb.
    + constructor; [constructor; assumption|].
      constructor; [unfold sched_le; lia|].
      rewrite Forall_forall in Hb |- *. intros x Hx. specialize (Hb x Hx).
      unfold sched_le in *; lia.
Qed.

Lemma sort_by_sched_fold_perm l acc :
  Permutation (fold_left (fun acc a => insert_by_sched a acc) l acc) (l ++ acc).
Proof.
  revert acc. induction l as [|a l IH]; intros acc; simpl; [reflexivity|].
  rewrite IH, insert_by_sched_perm. apply Permutation_sym, Permutation_middle.
Qed.

Lemma sort_by_sched_perm l : Permutation (sort_by_sched l) l.
Proof.
  unfold sort_by_sched. rewrite sort_by_sched_fold_perm, app_nil_r. reflexivity.
Qed.

Lemma sort_by_sched_fold_ssorted l acc :
  StronglySorted sched_le acc ->
  StronglySorted sched_le (fold_left (fun acc a => insert_by_sched a acc) l acc).
Proof.
  revert acc. induction l as [|a l IH]; intros acc H; simpl; [exact H|].
  apply IH, insert_by_sched_ssorted, H.
Qed.

Lemma sort_by_sched_sorted l : Sorted sched_le (sort_by_sched l).
Proof.
  apply StronglySorted_Sorted, sort_by_sched_fold_ssorted. constructor.
Qed.

Lemma sort_by_sched_in l a : In a (sort_by_sched l) <-> In a l.
Proof.
  split; apply Permutation_in; [|apply Permutation_sym]; apply sort_by_sched_perm.
Qed.

Lemma filter_insert_false (p : HomeworkAssignment -> bool) a l :
  p a = false -> filter p (insert_by_sched a l) = filter p l.
Proof.
  intros Hp. induction l as [|b l IH]; simpl.
  - now rewrite Hp.
  - destruct (scheduled_datetime b <=? scheduled_datetime a); simpl.
    + now rewrite IH.
    + now rewrite Hp.
Qed.

Lemma insert_by_sched_head a l :
  (forall x, In x l -> scheduled_datetime a < scheduled_datetime x) ->
  insert_by_sched a l = a :: l.
Proof.
  destruct l as [|b l]; intros H; simpl; [reflexivity|].
  specialize (H b (or_introl eq_refl)).
  destruct (Z.leb_spec (scheduled_datetime b) (scheduled_datetime a)); [lia|reflexivity].
Qed.

Lemma filter_insert_true (p : HomeworkAssignment -> bool) a l :
  StronglySorted sched_le l -> p a = true ->
  filter p (insert_by_sched a l) = insert_by_sched a (filter p l).
Proof.
  intros Hs Hp. induction l as [|b l IH].
  - simpl. now rewrite Hp.
  - apply StronglySorted_inv in Hs as [Hl Hb]. rewrite Forall_forall in Hb.
    destruct (Z.leb_spec (scheduled_datetime b) (scheduled_datetime a)) as [Hba|Hab].
    + simpl. apply Z.leb_le in Hba as Hba'. rewrite Hba'. simpl.
      rewrite (IH Hl). destruct (p b) eqn:Hpb; simpl; [|reflexivity].
      now rewrite Hba'.
    + rewrite (insert_by_sched_head a (b :: l)).
      2:{ intros x [<-|Hx]; [exact Hab|]. specialize (Hb x Hx). unfold sched_le in Hb. lia. }
      change (filter p (a :: b :: l)) with (if p a then a :: filter p (b :: l) else filter p (b :: l)).
      rewrite Hp. symmetry. apply insert_by_sched_head.
      intros x Hx. apply filter_In in Hx as [Hx _]. destruct Hx as [<-|Hx]; [exact Hab|].
      specialize (Hb x Hx). unfold sched_le in Hb. lia.
Qed.

(** Filtering a stably sorted list is sorting the filtered list. *)
Lemma filter_sort_by_sched (p : HomeworkAssignment -> bool) l :
  filter p (sort_by_sched l) = sort_by_sched (filter p l).
Proof.
  unfold sort_by_sched.
  assert (H : forall acc, StronglySorted sched_le acc ->
            filter p (fold_left (fun acc a => insert_by_sched a acc) l acc)
            = fold_left (fun acc a => insert_by_sched a acc) (filter p l) (filter p acc)).
  { induction l as [|a l IH]; intros acc Hacc; simpl; [reflexivity|].
    rewrite IH by now apply insert_by_sched_ssorted.
    destruct (p a) eqn:Hp; simpl.
    - now rewrite filter_insert_true.
    - now rewrite filter_insert_false. }
  apply H. constructor.
Qed.

Lemma filter_filter_and {X} (p q : X -> bool) l :
  filter p (filter q l) = filter (fun x => q x && p x) l.
Proof.
  induction l as [|x l IH]; simpl; [reflexivity|].
  destruct (q x); simpl; [destruct (p x)|]; simpl; now rewrite ?IH.
Qed.

(** X1. [get_pending_assignments] and [get_all_assignments] return their
    assignments in non-decreasing scheduled time. [get_pending_assignments]
    lists exactly the stored assignments with status "pending", and both
    keep, when the course name given is non-empty, exactly those whose
    course name is equal to it ignoring case; no course name or an empty
    one keeps every course. *)
Theorem homework_views_sorted_filtered (cn : option string) (d : assignments) :
  Sorted sched_le (get_pending_assignments cn d) /\
  Sorted sched_le (get_all_assignments cn d) /\
  (forall a, In a (get_pending_assignments cn d) <->
     In a (PyDict.values d) /\ status a = "pending" /\
     (forall c, cn = Some c -> c <> "" -> py_lower (course_name a) = py_lower c)) /\
  (forall a, In a (get_all_assignments cn d) <->
     In a (PyDict.values d) /\
     (forall c, cn = Some c -> c <> "" -> py_lower (course_name a) = py_lower c)).
Proof.
  unfold get_pending_assignments, get_all_assignments.
  split; [apply sort_by_sched_sorted|]. split; [apply sort_by_sched_sorted|].
  assert (Hc : forall l a, In a (filter_course cn l) <->
                 In a l /\ (forall c, cn = Some c -> c <> "" -> py_lower (course_name a) = py_lower c)).
  { intros l a. unfold filter_course. destruct cn as [c|].
    - destruct (String.eqb_spec c "") as [->|Hne].
      + split; [intros H; split; [exact H|intros c' Hc' Hne'; injection Hc' as <-; contradiction]|].
        intros [H _]; exact H.
      + rewrite filter_In. split.
        * intros [H1 H2]. split; [exact H1|]. intros c' Hc' _. injection Hc' as <-.
          now apply String.eqb_eq.
        * intros [H1 H2]. split; [exact H1|]. apply String.eqb_eq. now apply H2.
    - split; [intros H; split; [exact H|discriminate]|intros [H _]; exact H]. }
  split; intros a; rewrite sort_by_sched_in, Hc; [rewrite filter_In|reflexivity].
  unfold is_pending. rewrite String.eqb_eq. tauto.
Qed.

(** X2. For a non-negative [hours_ahead], the overdue assignments are
    the upcoming ones scheduled at or before now, in the same order: the
    upcoming list includes every overdue assignment, and
    [get_overdue_assignments] is sorted by scheduled time. *)
Theorem overdue_within_upcoming (now hours_ahead : Z) (d : assignments) :
  0 <= hours_ahead ->
  get_overdue_assignments now d
  = filter (fun a => scheduled_datetime a <=? now) (get_upcoming_assignments now hours_ahead d) /\
  Sorted sched_le (get_overdue_assignments now d).
Proof.
  intros Hh. split; [|apply sort_by_sched_sorted].
  unfold get_overdue_assignments, get_upcoming_assignments.
  rewrite filter_sort_by_sched, filter_filter_and. f_equal.
  apply filter_ext. intros a. unfold is_due, is_pending.
  destruct (String.eqb (status a) "pending"); simpl; [|reflexivity].
  unfold HOUR, MINUTE, SECOND in *.
  destruct (Z.leb_spec (scheduled_datetime a) now); simpl.
  - rewrite andb_true_r. symmetry. apply Z.leb_le. lia.
  - now rewrite andb_false_r.
Qed.

Lemma overdue_within_upcoming_witness :
  0 <= 24 /\
  get_overdue_assignments (300 * SECOND) (store_of [sample_assignment "hwA" 200; sample_assignment "hwB" 100]).(hw_assignments)
  = filter (fun a => scheduled_datetime a <=? 300 * SECOND)
      (get_upcoming_assignments (300 * SECOND) 24
         (store_of [sample_assignment "hwA" 200; sample_assignment "hwB" 100]).(hw_assignments)).
Proof.
  split; [lia|].
  apply (proj1 (overdue_within_upcoming (300 * SECOND) 24
                  (store_of [sample_assignment "hwA" 200; sample_assignment "hwB" 100]).(hw_assignments)
                  ltac:(lia))).
Defined.

(** ** Cancelling an assignment *)

Lemma PyDict_get_delete {V} (k k2 : string) (d : PyDict.dict V) :
  PyDict.get k2 (PyDict.delete k d) = if String.eqb k2 k then None else PyDict.get k2 d.
Proof.
  induction d as [|[k' v'] d IH]; simpl; [now destruct (String.eqb k2 k)|].
  destruct (String.eqb_spec k' k) as [->|Hne]; simpl.
  - rewrite IH. destruct (String.eqb_spec k2 k); reflexivity.
  - rewrite IH. destruct (String.eqb_spec k2 k) as [->|]; [|reflexivity].
    apply String.eqb_neq in Hne. now rewrite String.eqb_sym, Hne.
Qed.

(** X3. [cancel_assignment] on an unknown id, or on an assignment that is
    already posted or failed, answers [false] and changes nothing. On a
    pending assignment it removes that one assignment from the store (the
    others stay as they were), then saves: it answers [true] with
    "Assignment '<title>' cancelled" when the save succeeds, and raises
    the save's error otherwise, the removal staying in memory. *)
Theorem cancel_assignment_outcomes (save : assignments -> option string) (hid : string) (s : HW) :
  (PyDict.get hid (hw_assignments s) = None ->
     cancel_assignment save hid s = (s, Ok (false, "Assignment '" ++ hid ++ "' not found"))) /\
  (forall a, PyDict.get hid (hw_assignments s) = Some a -> status a <> "pending" ->
     cancel_assignment save hid s
     = (s, Ok (false, "Assignment '" ++ hid ++ "' is already " ++ status a))) /\
  (forall a, PyDict.get hid (hw_assignments s) = Some a -> status a = "pending" ->
     let s' := fst (cancel_assignment save hid s) in
     PyDict.get hid (hw_assignments s') = None /\
     (forall k, k <> hid -> PyDict.get k (hw_assignments s') = PyDict.get k (hw_assignments s)) /\
     (save (PyDict.delete hid (hw_assignments s)) = None ->
        snd (cancel_assignment save hid s) = Ok (true, "Assignment '" ++ title a ++ "' cancelled") /\
        hw_saved s' = PyDict.delete hid (hw_assignments s) :: hw_saved s) /\
     (forall m, save (PyDict.delete hid (hw_assignments s)) = Some m ->
        snd (cancel_assignment save hid s) = Raise (Exc m))).
Proof.
  unfold cancel_assignment, bind, get_store, put_store, save_homework_assignments, ret.
  split; [|split].
  - intros H. simpl. now rewrite H.
  - intros a H Hst. simpl. rewrite H. apply String.eqb_neq in Hst. now rewrite Hst.
  - intros a H Hst. simpl. rewrite H, Hst. simpl.
    assert (Hk : forall k, k <> hid ->
              PyDict.get k (PyDict.delete hid (hw_assignments s)) = PyDict.get k (hw_assignments s)).
    { intros k Hne. rewrite PyDict_get_delete. apply String.eqb_neq in Hne. now rewrite Hne. }
    assert (Hh : PyDict.get hid (PyDict.delete hid (hw_assignments s)) = None).
    { now rewrite PyDict_get_delete, String.eqb_refl. }
    destruct (save (PyDict.delete hid (hw_assignments s))) as [m|] eqn:Hsave; simpl.
    + repeat split; try assumption; intros; congruence.
    + repeat split; try assumption; intros; congruence.
Qed.

(** ** Summaries *)

Lemma sumZ_values_set (k : string) (v : Z) (d : PyDict.dict Z) :
  sumZ (PyDict.values (PyDict.set k v d))
  = sumZ (PyDict.values d) - (match PyDict.get k d with Some n => n | None => 0 end) + v.
Proof.
  induction d as [|[k' v'] d IH]; simpl; [unfold sumZ; simpl; lia|].
  destruct (String.eqb k k'); unfold PyDict.values, sumZ in *; simpl in *; lia.
Qed.

Lemma count_by_fold (keys : list string) (acc : PyDict.dict Z) :
  let m := fold_left (fun m k => PyDict.set k (match PyDict.get k m with Some n => n | None => 0 end + 1) m)
                     keys acc in
  (forall k, PyDict.get k m =
     if occurrences keys k =? 0 then PyDict.get k acc
     else Some ((match PyDict.get k acc with Some n => n | None => 0 end) + occurrences keys k)) /\
  sumZ (PyDict.values m) = sumZ (PyDict.values acc) + Z.of_nat (length keys).
Proof.
  revert acc. induction keys as [|x keys IH]; intros acc; simpl.
  - split; [intros k; unfold occurrences; simpl; reflexivity|lia].
  - destruct (IH (PyDict.set x (match PyDict.get x acc with Some n => n | None => 0 end + 1) acc))
      as [Hget Hsum].
    split.
    + intros k. rewrite Hget. unfold occurrences in *. simpl.
      destruct (string_dec x k) as [<-|Hne].
      * rewrite PyDict_get_set_same.
        destruct (count_occ string_dec keys x); simpl; f_equal; lia.
      * rewrite PyDict_get_set_other by congruence.
        destruct (Z.of_nat (count_occ string_dec keys k) =? 0); reflexivity.
    + rewrite Hsum, sumZ_values_set. lia.
Qed.

(** Each key seen is counted by [count_by], and the counts add up to the
    number of keys. *)
Lemma count_by_spec (keys : list string) :
  (forall k, PyDict.get k (count_by keys) =
     if occurrences keys k =? 0 then None else Some (occurrences keys k)) /\
  sumZ (PyDict.values (count_by keys)) = Z.of_nat (length keys).
Proof.
  destruct (count_by_fold keys []) as [Hget Hsum]. unfold count_by. split.
  - intros k. rewrite Hget. reflexivity.
  - rewrite Hsum. reflexivity.
Qed.

Lemma occurrences_filter {X} (f : X -> string) (k : string) (l : list X) :
  occurrences (map f l) k = Z.of_nat (length (filter (fun x => String.eqb (f x) k) l)).
Proof.
  unfold occurrences. induction l as [|x l IH]; simpl; [reflexivity|].
  destruct (string_dec (f x) k) as [E|E];
    [apply String.eqb_eq in E as E'|apply String.eqb_neq in E as E']; rewrite E'; simpl; lia.
Qed.

Lemma length_filter_le {X} (p : X -> bool) (l : list X) : (length (filter p l) <= length l)%nat.
Proof.
  induction l as [|x l IH]; simpl; [lia|]. destruct (p x); simpl; lia.
Qed.

Lemma sort_by_sched_ssorted l : StronglySorted sched_le (sort_by_sched l).
Proof. apply sort_by_sched_fold_ssorted. constructor. Qed.

(** X4. In [get_schedule_summary], the counts by status and the counts by
    course each add up to [total_assignments]; the count of status
    "pending" is [pending_count] (the key is absent when it is 0);
    [overdue_count] is at most [pending_count]; and [next_assignment] is
    [None] exactly when nothing is pending, and otherwise the ISO time of
    a pending assignment scheduled no later than any other pending one. *)
Theorem schedule_summary_consistent (now : Z) (running : bool) (d : assignments) :
  let sm := get_schedule_summary now running d in
  sumZ (PyDict.values (by_status sm)) = total_assignments sm /\
  sumZ (PyDict.values (by_course sm)) = total_assignments sm /\
  PyDict.get "pending" (by_status sm)
    = (if pending_count sm =? 0 then None else Some (pending_count sm)) /\
  0 <= overdue_count sm <= pending_count sm /\
  (next_assignment sm = None <-> pending_count sm = 0) /\
  (forall a, In a (PyDict.values d) -> status a = "pending" ->
     exists a0, next_assignment sm = Some (isoformat_utc (scheduled_datetime a0)) /\
       In a0 (PyDict.values d) /\ status a0 = "pending" /\
       scheduled_datetime a0 <= scheduled_datetime a).
Proof.
  intros sm. subst sm. unfold get_schedule_summary. cbn [by_status by_course total_assignments
    pending_count overdue_count next_assignment].
  destruct (count_by_spec (map status (PyDict.values d))) as [Hst Hsts].
  destruct (count_by_spec (map course_name (PyDict.values d))) as [_ Hcos].
  rewrite !length_map in Hsts, Hcos.
  assert (Hpl : length (get_pending_assignments None d)
                = length (filter (fun a => String.eqb (status a) "pending") (PyDict.values d))).
  { unfold get_pending_assignments, filter_course. apply Permutation_length, sort_by_sched_perm. }
  split; [exact Hsts|]. split; [exact Hcos|]. split.
  { rewrite Hst, occurrences_filter, Hpl. reflexivity. }
  split.
  { split; [lia|]. apply Nat2Z.inj_le. rewrite Hpl.
    unfold get_overdue_assignments. rewrite (Permutation_length (sort_by_sched_perm _)).
    assert (E : filter (is_due now) (PyDict.values d)
                = filter (fun a => scheduled_datetime a <=? now)
                         (filter (fun a => String.eqb (status a) "pending") (PyDict.values d))).
    { rewrite filter_filter_and. reflexivity. }
    rewrite E. apply length_filter_le. }
  split.
  { destruct (get_pending_assignments None d); simpl; split; intros H; try discriminate; try lia.
    reflexivity. }
  intros a Ha Hpa.
  assert (Hs : StronglySorted sched_le (get_pending_assignments None d)) by apply sort_by_sched_ssorted.
  assert (Hmem : forall x, In x (get_pending_assignments None d) <->
                   In x (PyDict.values d) /\ status x = "pending").
  { intros x. unfold get_pending_assignments, filter_course. rewrite sort_by_sched_in, filter_In.
    unfold is_pending. now rewrite String.eqb_eq. }
  assert (Hin : In a (get_pending_assignments None d)) by now apply Hmem.
  destruct (get_pending_assignments None d) as [|a0 rest]; [destruct Hin|].
  exists a0. split; [reflexivity|].
  destruct (proj1 (Hmem a0) (or_introl eq_refl)) as [Ha0 Hp0].
  split; [exact Ha0|]. split; [exact Hp0|].
  apply StronglySorted_inv in Hs as [_ Hf]. rewrite Forall_forall in Hf.
  destruct Hin as [<-|Hin]; [lia|]. exact (Hf a Hin).
Qed.

(** X5. In [get_roster_summary], the counts by status and the counts by
    course each add up to [total_students], and the counts of the
    statuses "pending" and "enrolled" are the lengths of
    [get_pending_students] and [get_enrolled_students] (a key is absent
    when its count is 0). *)
Theorem roster_summary_consistent (cs : Course.CS) :
  let sm := CourseOps.get_roster_summary cs in
  sumZ (PyDict.values (CourseOps.students_by_status sm)) = CourseOps.total_students sm /\
  sumZ (PyDict.values (CourseOps.students_by_course sm)) = CourseOps.total_students sm /\
  PyDict.get "pending" (CourseOps.students_by_status sm)
    = (let n := Z.of_nat (length (CourseOps.get_pending_students (Course.cs_students cs))) in
       if n =? 0 then None else Some n) /\
  PyDict.get "enrolled" (CourseOps.students_by_status sm)
    = (let n := Z.of_nat (length (CourseOps.get_enrolled_students (Course.cs_students cs))) in
       if n =? 0 then None else Some n).
Proof.
  intros sm. subst sm. unfold CourseOps.get_roster_summary. cbn.
  destruct (count_by_spec (map Course.status (Course.cs_students cs))) as [Hst Hsts].
  destruct (count_by_spec (map Course.course_name (Course.cs_students cs))) as [_ Hcos].
  rewrite !length_map in Hsts, Hcos.
  split; [exact Hsts|]. split; [exact Hcos|].
  split; rewrite Hst, occurrences_filter; reflexivity.
Qed.

(** ** The course registry *)

Lemma chars_string_of_list (l : list ascii) : chars (string_of_list l) = l.
Proof. induction l as [|c l IH]; simpl; [reflexivity|now rewrite IH]. Qed.

Lemma is_py_space_lower (c : ascii) : is_py_space (lower_ascii c) = is_py_space c.
Proof. destruct c as [[] [] [] [] [] [] [] []]; reflexivity. Qed.

Lemma quote_eqb_lower (c : ascii) :
  Ascii.eqb (lower_ascii c) "'"%char = Ascii.eqb c "'"%char /\
  Ascii.eqb (lower_ascii c) (ascii_of_nat 34) = Ascii.eqb c (ascii_of_nat 34).
Proof. destruct c as [[] [] [] [] [] [] [] []]; split; reflexivity. Qed.

Lemma drop_while_map (p : ascii -> bool) (f : ascii -> ascii) (l : list ascii) :
  (forall c, p (f c) = p c) -> drop_while p (map f l) = map f (drop_while p l).
Proof.
  intros Hp. induction l as [|c l IH]; simpl; [reflexivity|].
  rewrite Hp. destruct (p c); [exact IH|reflexivity].
Qed.

Lemma py_lower_strip_by (p : ascii -> bool) (s : string) :
  (forall c, p (lower_ascii c) = p c) -> py_lower (strip_by p s) = strip_by p (py_lower s).
Proof.
  intros Hp. unfold py_lower, strip_by. rewrite !chars_string_of_list. f_equal.
  repeat (rewrite map_rev || rewrite <- (drop_while_map p lower_ascii) by exact Hp).
  reflexivity.
Qed.

(** The course key of a name is a function of the name in lower case. *)
Lemma normalize_course_name_lower (n : string) :
  Course.normalize_course_name n
  = py_strip (py_strip_char "'"%char (py_strip_char (ascii_of_nat 34) (py_strip (py_lower n)))).
Proof.
  unfold Course.normalize_course_name, py_strip, py_strip_char.
  rewrite !py_lower_strip_by; try reflexivity; intros c;
    first [apply is_py_space_lower | apply (proj1 (quote_eqb_lower c)) | apply (proj2 (quote_eqb_lower c))].
Qed.

(** X8. [get_course] ignores case: two names equal up to case find the
    same course (or none). *)
Theorem get_course_case_insensitive (courses : PyDict.dict Course.CourseConfig) (n1 n2 : string) :
  py_lower n1 = py_lower n2 -> Course.get_course courses n1 = Course.get_course courses n2.
Proof.
  intros H. unfold Course.get_course. now rewrite !normalize_course_name_lower, H.
Qed.

Lemma get_course_case_insensitive_witness :
  py_lower "SPANISH" = py_lower "Spanish" /\
  Course.get_course (Course.cs_courses cs_known) "KNOWN"
  = Course.get_course (Course.cs_courses cs_known) "Known".
Proof.
  split; [reflexivity|]. apply get_course_case_insensitive. reflexivity.
Defined.

(** X6. [add_course] cleans the name (outer whitespace, then double and
    single quotes, then whitespace) and refuses, without any change, an
    empty cleaned name, a course whose key (the cleaned name in lower
    case) is already configured, and a role or category id that is not
    positive, in that order. Otherwise it stores the new course under its
    key, with no other course changed and the roster untouched, so that
    [get_course] of the cleaned name finds it; it then answers [true] if
    the save succeeds and raises the save's error if not, the course
    staying in memory. *)
Theorem add_course_outcomes (save : PyDict.dict Course.CourseConfig -> option string)
    (name : string) (role_id category_id : Z) (channels : option (list string))
    (welcome : string) (cs : Course.CS) :
  let clean := CourseOps.clean_course_name name in
  let r := CourseOps.add_course save name role_id category_id channels welcome cs in
  (clean = "" -> r = (cs, Ok (false, "Course name cannot be empty"))) /\
  (clean <> "" -> Course.get_course (Course.cs_courses cs) clean <> None ->
     r = (cs, Ok (false, "Course '" ++ clean ++ "' already exists"))) /\
  (clean <> "" -> Course.get_course (Course.cs_courses cs) clean = None ->
     role_id <= 0 \/ category_id <= 0 ->
     r = (cs, Ok (false, "Role ID and Category ID must be positive integers"))) /\
  (clean <> "" -> Course.get_course (Course.cs_courses cs) clean = None ->
     0 < role_id -> 0 < category_id ->
     let cfg := Course.mkCourseConfig clean role_id category_id
                  (match channels with Some l => l | None => [] end) welcome in
     Course.get_course (Course.cs_courses (fst r)) clean = Some cfg /\
     (forall n, Course.normalize_course_name n <> Course.normalize_course_name clean ->
        Course.get_course (Course.cs_courses (fst r)) n = Course.get_course (Course.cs_courses cs) n) /\
     Course.cs_students (fst r) = Course.cs_students cs /\
     snd r = match save (Course.cs_courses (fst r)) with
             | None => Ok (true, "Course '" ++ clean ++ "' added successfully")
             | Some m => Raise (Exc m)
             end).
Proof.
  intros clean r. subst r. unfold CourseOps.add_course. fold clean.
  split; [|split; [|split]].
  - intros H. now rewrite H.
  - intros H Hc. apply String.eqb_neq in H. rewrite H.
    unfold Course.get_course, PyDict.mem in *.
    destruct (PyDict.get _ _); [reflexivity|contradiction].
  - intros H Hc Hid. apply String.eqb_neq in H. rewrite H.
    unfold Course.get_course, PyDict.mem in *. rewrite Hc.
    destruct Hid as [Hid|Hid]; apply Z.leb_le in Hid; rewrite Hid; [reflexivity|].
    now rewrite orb_true_r.
  - intros H Hc Hr Hk. apply String.eqb_neq in H. rewrite H.
    unfold Course.get_course, PyDict.mem in *. rewrite Hc.
    assert (E : (role_id <=? 0) || (category_id <=? 0) = false).
    { apply orb_false_iff. split; apply Z.leb_gt; lia. }
    rewrite E.
    destruct (save _) eqn:Hs; cbn [fst snd Course.cs_courses Course.cs_students];
      (split; [apply PyDict_get_set_same|]);
      (split; [intros n Hn; apply PyDict_get_set_other; exact Hn|]);
      (split; [reflexivity|]); cbn [fst snd Course.cs_courses]; rewrite Hs; reflexivity.
Qed.

Lemma PyDict_delete_absent {V} (k : string) (d : PyDict.dict V) :
  PyDict.get k d = None -> PyDict.delete k d = d.
Proof.
  induction d as [|[k' v'] d IH]; simpl; intros H; [reflexivity|].
  destruct (String.eqb_spec k k') as [->|Hne]; [discriminate|].
  destruct (String.eqb_spec k' k) as [->|_]; [contradiction|]. simpl. now rewrite IH.
Qed.

Lemma PyDict_delete_set {V} (k : string) (v : V) (d : PyDict.dict V) :
  PyDict.delete k (PyDict.set k v d) = PyDict.delete k d.
Proof.
  induction d as [|[k' v'] d IH]; simpl.
  - now rewrite String.eqb_refl.
  - destruct (String.eqb_spec k k') as [->|Hne]; simpl.
    + now rewrite String.eqb_refl.
    + destruct (String.eqb_spec k' k) as [->|_]; [contradiction|]. simpl. now rewrite IH.
Qed.

(** X7. Removing, by its cleaned name, a course just added gives back
    the registry and roster as they were before the addition, whatever
    the outcome of the addition's save; the removal answers [true] when
    the addition's save and its own save succeed. *)
Theorem add_then_remove_course (save : PyDict.dict Course.CourseConfig -> option string)
    (name : string) (role_id category_id : Z) (channels : option (list string))
    (welcome : string) (cs : Course.CS) :
  CourseOps.clean_course_name name <> "" ->
  Course.get_course (Course.cs_courses cs) (CourseOps.clean_course_name name) = None ->
  0 < role_id -> 0 < category_id ->
  let cs1 := fst (CourseOps.add_course save name role_id category_id channels welcome cs) in
  let r := CourseOps.remove_course save (CourseOps.clean_course_name name) cs1 in
  fst r = cs /\
  (save (Course.cs_courses cs) = None ->
     snd r = Ok (true, "Course '" ++ CourseOps.clean_course_name name ++ "' removed successfully")).
Proof.
  intros H Hc Hr Hk cs1 r.
  destruct (add_course_outcomes save name role_id category_id channels welcome cs)
    as (_ & _ & _ & Hadd).
  destruct (Hadd H Hc Hr Hk) as (Hget & _ & Hstu & _). fold cs1 in Hget, Hstu.
  assert (Hcs1 : Course.cs_courses cs1
                 = PyDict.set (Course.normalize_course_name (CourseOps.clean_course_name name))
                     (Course.mkCourseConfig (CourseOps.clean_course_name name) role_id category_id
                        (match channels with Some l => l | None => [] end) welcome)
                     (Course.cs_courses cs)).
  { subst cs1. unfold CourseOps.add_course.
    apply String.eqb_neq in H. rewrite H.
    unfold Course.get_course, PyDict.mem in *. rewrite Hc.
    assert (E : (role_id <=? 0) || (category_id <=? 0) = false).
    { apply orb_false_iff. split; apply Z.leb_gt; lia. }
    rewrite E. destruct (save (PyDict.set _ _ _)); reflexivity. }
  unfold Course.get_course in Hget, Hc. subst r. unfold CourseOps.remove_course.
  rewrite Hget. rewrite Hcs1, PyDict_delete_set, PyDict_delete_absent by exact Hc.
  destruct cs as [courses students]. cbn in Hstu |- *. rewrite Hstu.
  destruct (save courses); split; try reflexivity; discriminate.
Qed.

Lemma add_then_remove_course_witness :
  CourseOps.clean_course_name " 'Spanish' " <> "" /\
  fst (CourseOps.remove_course save_courses_ok "Spanish"
         (fst (CourseOps.add_course save_courses_ok " 'Spanish' " 7 8 None "Hola" cs_known)))
  = cs_known.
Proof.
  split; [discriminate|].
  exact (proj1 (add_then_remove_course save_courses_ok " 'Spanish' " 7 8 None "Hola" cs_known
                  ltac:(discriminate) ltac:(reflexivity) ltac:(lia) ltac:(lia))).
Defined.

(** ** Roster lookups and updates *)

Lemma find_decomp {A} (p : A -> bool) (l : list A) (x : A) :
  find p l = Some x ->
  exists l1 l2, l = (l1 ++ x :: l2)%list /\ (forall y, In y l1 -> p y = false) /\ p x = true.
Proof.
  induction l as [|y l IH]; simpl; [discriminate|].
  destruct (p y) eqn:Hy.
  - intros H. injection H as <-. exists [], l. simpl. repeat split; auto. contradiction.
  - intros H. destruct (IH H) as (l1 & l2 & -> & Hl1 & Hx).
    exists (y :: l1), l2. repeat split; auto.
    intros z [<-|Hz]; auto.
Qed.

Lemma find_none {A} (p : A -> bool) (l : list A) :
  find p l = None <-> forall y, In y l -> p y = false.
Proof.
  induction l as [|y l IH]; simpl; [split; [contradiction|reflexivity]|].
  destruct (p y) eqn:Hy; split.
  - discriminate.
  - intros H. rewrite (H y (or_introl eq_refl)) in Hy. discriminate.
  - intros H z [<-|Hz]; [exact Hy|]. now apply IH.
  - intros H. apply IH. intros z Hz. exact (H z (or_intror Hz)).
Qed.

Lemma update_first_decomp (p : Course.StudentRecord -> bool) f l1 x l2 :
  (forall y, In y l1 -> p y = false) -> p x = true ->
  CourseOps.update_first p f (l1 ++ x :: l2)%list = (l1 ++ f x :: l2)%list.
Proof.
  intros Hl1 Hx. induction l1 as [|y l1 IH]; simpl.
  - now rewrite Hx.
  - rewrite (Hl1 y (or_introl eq_refl)). f_equal. apply IH.
    intros z Hz. exact (Hl1 z (or_intror Hz)).
Qed.

(** X9. [find_student_by_discord] lower-cases and strips the handle it
    is given and returns the first student of the roster whose stored
    handle equals the result, or [None] when no student has it. A student
    built by [StudentRecord] from a handle [h0] (which stores the handle
    lower-cased and stripped) is found by [h0] and by any handle equal to
    [h0] up to case. *)
Theorem find_student_by_discord_spec (students : list Course.StudentRecord) (h : string) :
  (forall s, CourseOps.find_student_by_discord students h = Some s ->
     exists l1 l2, students = (l1 ++ s :: l2)%list /\
       Course.discord_handle s = py_strip (py_lower h) /\
       forall y, In y l1 -> Course.discord_handle y <> py_strip (py_lower h)) /\
  (CourseOps.find_student_by_discord students h = None <->
     forall y, In y students -> Course.discord_handle y <> py_strip (py_lower h)) /\
  (forall e n h0 c ed st, In (Course.make_student e n h0 c ed st) students ->
     py_lower h = py_lower h0 ->
     exists s, CourseOps.find_student_by_discord students h = Some s /\
               Course.discord_handle s = Course.discord_handle (Course.make_student e n h0 c ed st)).
Proof.
  unfold CourseOps.find_student_by_discord. split; [|split].
  - intros s Hs. destruct (find_decomp _ _ _ Hs) as (l1 & l2 & -> & Hl1 & Hx).
    exists l1, l2. split; [reflexivity|]. split; [now apply String.eqb_eq|].
    intros y Hy. apply String.eqb_neq. exact (Hl1 y Hy).
  - rewrite find_none. split; intros H y Hy; specialize (H y Hy);
      [now apply String.eqb_neq | now apply String.eqb_neq].
  - intros e n h0 c ed st Hin Hl.
    destruct (find _ students) as [s|] eqn:Hf.
    + exists s. split; [reflexivity|]. simpl.
      destruct (find_decomp _ _ _ Hf) as (_ & _ & _ & _ & Hx).
      apply String.eqb_eq in Hx. now rewrite Hx, Hl.
    + apply find_none with (y := Course.make_student e n h0 c ed st) in Hf; [|exact Hin].
      simpl in Hf. rewrite Hl, String.eqb_refl in Hf. discriminate.
Qed.

Lemma length_filter_app_cons {A} (q : A -> bool) l1 x l2 :
  length (filter q (l1 ++ x :: l2)%list)
  = (length (filter q l1) + (if q x then 1 else 0) + length (filter q l2))%nat.
Proof. rewrite filter_app, length_app. simpl. destruct (q x); simpl; lia. Qed.

(** X10. [update_student_discord_id] changes exactly the student that
    [find_student_by_discord] returns: it records the Discord id and
    turns the status "pending" into "enrolled" (any other status is
    kept), leaving every other record and the roster's length as they
    were, and answers [true]; with no such student nothing changes and
    it answers [false]. So one call moves at most one student from the
    pending list to the enrolled list, and exactly one when the student
    found was pending. *)
Theorem update_student_discord_id_effect (h : string) (did : Z)
    (students : list Course.StudentRecord) :
  let r := CourseOps.update_student_discord_id h did students in
  (CourseOps.find_student_by_discord students h = None -> r = (students, false)) /\
  (forall s, CourseOps.find_student_by_discord students h = Some s ->
     snd r = true /\
     (exists l1 l2, students = (l1 ++ s :: l2)%list /\
        fst r = (l1 ++ CourseOps.set_discord_id did s :: l2)%list) /\
     Course.discord_id (CourseOps.set_discord_id did s) = Some did /\
     Course.discord_handle (CourseOps.set_discord_id did s) = Course.discord_handle s /\
     length (fst r) = length students /\
     (length (CourseOps.get_pending_students (fst r))
        + (if String.eqb (Course.status s) "pending" then 1 else 0)
      = length (CourseOps.get_pending_students students))%nat /\
     length (CourseOps.get_enrolled_students (fst r))
     = (length (CourseOps.get_enrolled_students students)
        + (if String.eqb (Course.status s) "pending" then 1 else 0))%nat).
Proof.
  intros r. subst r. unfold CourseOps.update_student_discord_id.
  unfold CourseOps.find_student_by_discord. split.
  - intros H. now rewrite H.
  - intros s Hs. rewrite Hs. destruct (find_decomp _ _ _ Hs) as (l1 & l2 & -> & Hl1 & Hx).
    rewrite (update_first_decomp _ _ _ _ _ Hl1 Hx). cbn [fst snd].
    split; [reflexivity|]. split; [exists l1, l2; split; reflexivity|].
    split; [reflexivity|]. split; [reflexivity|].
    split; [rewrite !length_app; reflexivity|].
    unfold CourseOps.get_pending_students, CourseOps.get_enrolled_students.
    rewrite !length_filter_app_cons. unfold CourseOps.set_discord_id. cbn [Course.status].
    destruct (String.eqb (Course.status s) "pending") eqn:Hp; cbn.
    + apply String.eqb_eq in Hp. rewrite Hp. cbn. lia.
    + rewrite Hp. lia.
Qed.

(** ** Loading a roster *)

Lemma string_of_list_nil (l : list ascii) : string_of_list l = "" -> l = [].
Proof. destruct l; [reflexivity|discriminate]. Qed.

Lemma chars_nil (s : string) : chars s = [] -> s = "".
Proof. destruct s; [reflexivity|discriminate]. Qed.

Lemma drop_while_nil_iff (p : ascii -> bool) (l : list ascii) :
  drop_while p l = [] <-> forallb p l = true.
Proof.
  induction l as [|c l IH]; simpl; [tauto|].
  destruct (p c); simpl; [exact IH|split; discriminate].
Qed.

Lemma forallb_drop_while (p : ascii -> bool) (l : list ascii) :
  forallb p (drop_while p l) = true -> drop_while p l = [].
Proof.
  induction l as [|c l IH]; simpl; [reflexivity|].
  destruct (p c) eqn:Hc; [exact IH|]. simpl. now rewrite Hc.
Qed.

Lemma forallb_rev {A} (p : A -> bool) (l : list A) : forallb p (rev l) = forallb p l.
Proof.
  induction l as [|x l IH]; simpl; [reflexivity|].
  rewrite forallb_app, IH. simpl. now rewrite andb_true_r, andb_comm.
Qed.

Lemma rev_nil_inv {A} (l : list A) : rev l = [] -> l = [].
Proof. intros H. apply (f_equal (@rev A)) in H. now rewrite rev_involutive in H. Qed.

(** A string stripped of the characters [p] selects stays non-empty when
    stripped again. *)
Lemma strip_by_nonempty_again (p : ascii -> bool) (s : string) :
  strip_by p s <> "" -> strip_by p (strip_by p s) <> "".
Proof.
  intros H E. apply H. clear H. unfold strip_by in *.
  apply string_of_list_nil in E. rewrite chars_string_of_list in E.
  apply rev_nil_inv, drop_while_nil_iff in E. rewrite forallb_rev in E.
  apply forallb_drop_while, drop_while_nil_iff in E. rewrite forallb_rev in E.
  apply forallb_drop_while in E. now rewrite E.
Qed.

Lemma py_lower_nonempty (s : string) : s <> "" -> py_lower s <> "".
Proof.
  intros H E. apply H. unfold py_lower in E. apply string_of_list_nil, map_eq_nil in E.
  now apply chars_nil.
Qed.

(** The [StudentRecord] of a loaded row: its handle, lower-cased and
    stripped, is blank only if the row's handle is. *)
Lemma stored_handle_nonempty (v : string) :
  py_strip v <> "" -> py_strip (py_lower (py_strip v)) <> "".
Proof.
  intros H. unfold py_strip in *. rewrite <- py_lower_strip_by by apply is_py_space_lower.
  apply py_lower_nonempty, strip_by_nonempty_again, H.
Qed.

Lemma check_required_in required_order row_num row f :
  Course.check_required row_num row required_order = None -> In f required_order ->
  py_strip (Course.row_value row f) <> "".
Proof.
  induction required_order as [|g gs IH]; simpl; [contradiction|].
  unfold row_get. destruct (PyDict.get g row) as [[v|]|] eqn:Hg; try discriminate.
  - destruct (String.eqb_spec (py_strip v) "") as [_|Hv]; [discriminate|].
    intros Hrest [<-|Hf]; [|exact (IH Hrest Hf)].
    unfold Course.row_value. now rewrite Hg.
Qed.

Lemma roster_row_ok required_order courses row_num row s :
  Course.roster_row required_order courses row_num row = inr s ->
  Course.get_course courses (Course.course_name s) <> None /\
  Course.discord_id s = None /\
  (incl Course.required_roster_columns required_order ->
     Course.email s <> "" /\ Course.student_name s <> "" /\
     Course.discord_handle s <> "" /\ Course.course_name s <> "").
Proof.
  unfold Course.roster_row.
  destruct (Course.check_required row_num row required_order) eqn:Hreq; [discriminate|].
  destruct (Course.get_course courses _) eqn:Hc; [|discriminate].
  destruct (row_get row "enrolled_date" ""), (row_get row "status" "pending"); try discriminate.
  intros H. injection H as <-. cbn.
  split; [rewrite Hc; discriminate|]. split; [reflexivity|].
  intros Hincl.
  assert (Hf : forall f, In f Course.required_roster_columns ->
                 py_strip (Course.row_value row f) <> "").
  { intros f Hf. exact (check_required_in _ _ _ _ Hreq (Hincl f Hf)). }
  repeat split.
  - apply Hf. simpl. tauto.
  - apply Hf. simpl. tauto.
  - apply stored_handle_nonempty, Hf. simpl. tauto.
  - apply Hf. simpl. tauto.
Qed.

Lemma roster_rows_ok required_order courses row_num rows students :
  Course.roster_rows required_order courses row_num rows = inr students ->
  length students = length rows /\
  forall s, In s students -> exists k row, In row rows /\
    Course.roster_row required_order courses k row = inr s.
Proof.
  revert row_num students.
  induction rows as [|row rows IH]; simpl; intros row_num students H.
  - injection H as <-. split; [reflexivity|contradiction].
  - destruct (Course.roster_row _ _ _ row) as [e|s] eqn:Hr; [discriminate|].
    destruct (Course.roster_rows _ _ _ rows) as [e|ss] eqn:Hrs; [discriminate|].
    injection H as <-. destruct (IH _ _ Hrs) as [Hlen Hin].
    split; [simpl; now rewrite Hlen|].
    intros s' [<-|Hs'].
    + exists row_num, row. split; [left; reflexivity|exact Hr].
    + destruct (Hin s' Hs') as (k & r & Hr' & Hk). exists k, r. split; [right; exact Hr'|exact Hk].
Qed.

(** X11. [load_roster_from_text] is all or nothing. When it reports
    failure the registry and the roster are unchanged. When it reports
    success the registry is unchanged and the roster is replaced by one
    student per row, in a message "Loaded N students from roster" with N
    the number of rows; every student's course is configured, no student
    has a Discord id yet, and (when the fields checked for blanks are the
    four required columns) no student has a blank email, name, Discord
    handle or course. *)
Theorem load_roster_outcome required_order set_repr fieldnames rows cs cs' ok msg :
  Course.load_roster_from_text required_order set_repr fieldnames rows cs = (cs', (ok, msg)) ->
  (ok = false -> cs' = cs) /\
  (ok = true ->
     Course.cs_courses cs' = Course.cs_courses cs /\
     length (Course.cs_students cs') = length rows /\
     msg = "Loaded " ++ py_str_int (Z.of_nat (length rows)) ++ " students from roster" /\
     forall s, In s (Course.cs_students cs') ->
       Course.get_course (Course.cs_courses cs) (Course.course_name s) <> None /\
       Course.discord_id s = None /\
       (incl Course.required_roster_columns required_order ->
          Course.email s <> "" /\ Course.student_name s <> "" /\
          Course.discord_handle s <> "" /\ Course.course_name s <> "")).
Proof.
  unfold Course.load_roster_from_text.
  destruct (negb _).
  - intros H. injection H as <- <- <-. split; [reflexivity|discriminate].
  - destruct (Course.roster_rows _ _ _ rows) as [e|students] eqn:Hrs.
    + intros H. injection H as <- <- <-. split; [reflexivity|discriminate].
    + intros H. injection H as <- <- <-. split; [discriminate|intros _].
      destruct (roster_rows_ok _ _ _ _ _ Hrs) as [Hlen Hin]. cbn [Course.cs_courses Course.cs_students].
      split; [reflexivity|]. split; [exact Hlen|]. split; [now rewrite Hlen|].
      intros s Hs. destruct (Hin s Hs) as (k & row & _ & Hk).
      exact (roster_row_ok _ _ _ _ _ Hk).
Qed.

Lemma load_roster_outcome_witness :
  Course.load_roster_from_text Course.required_roster_columns set_repr_listed
    Course.required_roster_columns [roster_ok_row] cs_known
  = (Course.mkCS (Course.cs_courses cs_known)
       [Course.make_student "ana@example.com" "Ana" "Ana_L" "known" "" "pending"],
     (true, "Loaded 1 students from roster")) /\
  Course.cs_courses (Course.mkCS (Course.cs_courses cs_known)
       [Course.make_student "ana@example.com" "Ana" "Ana_L" "known" "" "pending"])
  = Course.cs_courses cs_known.
Proof.
  assert (H : Course.load_roster_from_text Course.required_roster_columns set_repr_listed
                Course.required_roster_columns [roster_ok_row] cs_known
              = (Course.mkCS (Course.cs_courses cs_known)
                   [Course.make_student "ana@example.com" "Ana" "Ana_L" "known" "" "pending"],
                 (true, "Loaded 1 students from roster")))
    by (vm_compute; reflexivity).
  split; [exact H|].
  exact (proj1 (proj2 (load_roster_outcome _ _ _ _ _ _ _ _ H) eq_refl)).
Defined.

(** ** Next daily and weekly occurrences *)

Lemma replace_hm_invalid (t : AwareDT) (h m : Z) :
  ~ (0 <= h <= 23 /\ 0 <= m <= 59) -> replace_hm t h m = None.
Proof.
  intros H. unfold replace_hm.
  destruct ((0 <=? h) && (h <=? 23) && (0 <=? m) && (m <=? 59)) eqn:E; [|reflexivity].
  exfalso. apply H. rewrite !andb_true_iff, !Z.leb_le in E. lia.
Qed.

(** X12. An hour outside 0..23 or a minute outside 0..59 makes both
    calculations fail ([replace] raises [ValueError], re-raised). The
    weekly calculation only uses [day_of_week] modulo 7: a day 7 (or -1)
    gives the same result as 0 (or 6), for any hour, minute and now. *)
Theorem next_occurrence_inputs (hour minute day_of_week : Z) (now : AwareDT) :
  (~ (0 <= hour <= 23 /\ 0 <= minute <= 59) ->
     calculate_next_daily_occurrence hour minute now = None /\
     calculate_next_weekly_occurrence hour minute day_of_week now = None) /\
  calculate_next_weekly_occurrence hour minute day_of_week now
  = calculate_next_weekly_occurrence hour minute (day_of_week mod 7) now.
Proof.
  split.
  - intros H. unfold calculate_next_daily_occurrence, calculate_next_weekly_occurrence.
    now rewrite replace_hm_invalid.
  - unfold calculate_next_weekly_occurrence.
    assert (E : (day_of_week - weekday now + 7) mod 7
                = (day_of_week mod 7 - weekday now + 7) mod 7).
    { rewrite (Z.div_mod day_of_week 7) at 1 by lia.
      replace (7 * (day_of_week / 7) + day_of_week mod 7 - weekday now + 7)
        with (day_of_week mod 7 - weekday now + 7 + (day_of_week / 7) * 7) by lia.
      apply Z.mod_add. lia. }
    now rewrite E.
Qed.

(** X13. For a valid hour and minute, the next daily occurrence is
    strictly after now and at most one day later, and the next weekly
    occurrence (for any [day_of_week]) is strictly after now and at most
    seven days later, as wall-clock readings with now's tzinfo. *)
Theorem next_occurrence_within_period (hour minute day_of_week : Z) (now : AwareDT) :
  0 <= hour <= 23 -> 0 <= minute <= 59 ->
  (exists r, calculate_next_daily_occurrence hour minute now = Some r /\
     wall now < wall r <= wall now + DAY) /\
  (exists r, calculate_next_weekly_occurrence hour minute day_of_week now = Some r /\
     wall now < wall r <= wall now + 7 * DAY).
Proof.
  intros Hh Hm.
  unfold calculate_next_daily_occurrence, calculate_next_weekly_occurrence.
  rewrite replace_hm_valid by assumption.
  unfold le_same_tz, add_days. cbn [wall utcoffset].
  pose proof (floor_day_bounds (wall now)) as Hb.
  set (t := floor_day (wall now) + hour * HOUR + minute * MINUTE).
  assert (Ht : floor_day (wall now) <= t < floor_day (wall now) + DAY).
  { unfold t. rewrite DAY_value. unfold HOUR, MINUTE, SECOND. lia. }
  split.
  - destruct (Z.leb_spec t (wall now)); eexists; (split; [reflexivity|]); cbn [wall];
      rewrite DAY_value in *; lia.
  - set (da := (day_of_week - weekday now + 7) mod 7).
    pose proof (Z.mod_pos_bound (day_of_week - weekday now + 7) 7 ltac:(lia)) as Bda.
    fold da in Bda.
    rewrite DAY_value in *.
    destruct (Z.eqb_spec da 0) as [Hda|Hda];
      destruct (Z.leb_spec t (wall now)) as [Hle|Hgt]; cbn [andb];
      eexists; (split; [reflexivity|]); cbn [wall]; nia.
Qed.

Lemma next_occurrence_within_period_witness :
  (exists r, calculate_next_daily_occurrence 9 30 (astimezone us_pacific_offset (1710270000 * SECOND))
               = Some r /\
     wall (astimezone us_pacific_offset (1710270000 * SECOND)) < wall r
       <= wall (astimezone us_pacific_offset (1710270000 * SECOND)) + DAY) /\
  (exists r, calculate_next_weekly_occurrence 9 30 8 (astimezone us_pacific_offset (1710270000 * SECOND))
               = Some r /\
     wall (astimezone us_pacific_offset (1710270000 * SECOND)) < wall r
       <= wall (astimezone us_pacific_offset (1710270000 * SECOND)) + 7 * DAY).
Proof.
  exact (next_occurrence_within_period 9 30 8 (astimezone us_pacific_offset (1710270000 * SECOND))
           ltac:(lia) ltac:(lia)).
Defined.

(** ** Sanitized strings and thread names *)

Lemma length_string_of_list (l : list ascii) : String.length (string_of_list l) = length l.
Proof. induction l as [|c l IH]; simpl; [reflexivity|now rewrite IH]. Qed.

Lemma length_string_append (s1 s2 : string) :
  String.length (s1 ++ s2) = (String.length s1 + String.length s2)%nat.
Proof. induction s1 as [|c s1 IH]; simpl; [reflexivity|now rewrite IH]. Qed.

Lemma length_chars (s : string) : length (chars s) = String.length s.
Proof. induction s as [|c s IH]; simpl; [reflexivity|now rewrite IH]. Qed.

Lemma length_drop_while (p : ascii -> bool) (l : list ascii) :
  (length (drop_while p l) <= length l)%nat.
Proof. induction l as [|c l IH]; simpl; [lia|]. destruct (p c); simpl; lia. Qed.

Lemma length_strip_by (p : ascii -> bool) (s : string) :
  (String.length (strip_by p s) <= String.length s)%nat.
Proof.
  unfold strip_by. rewrite length_string_of_list, length_rev.
  pose proof (length_drop_while p (rev (drop_while p (chars s)))).
  pose proof (length_drop_while p (chars s)).
  rewrite length_rev in *. rewrite length_chars in *. lia.
Qed.

Lemma length_py_rstrip (s : string) : (String.length (py_rstrip s) <= String.length s)%nat.
Proof.
  unfold py_rstrip. rewrite length_string_of_list, length_rev.
  pose proof (length_drop_while is_py_space (rev (chars s))).
  rewrite length_rev, length_chars in *. lia.
Qed.

Lemma length_substring_prefix (n : nat) (s : string) :
  (String.length (substring 0 n s) <= n)%nat.
Proof.
  revert n. induction s as [|c s IH]; intros [|n]; simpl; try lia.
  specialize (IH n). lia.
Qed.

(** X14. [sanitize_string] strips the text, then cuts it to [max_length]
    characters (and strips the cut end on the right) only when
    [max_length] is set, non-zero and smaller than the stripped length.
    So no limit, a limit of 0 and a limit at least the stripped length all
    give the stripped text; a positive limit bounds the length; a
    negative limit [m] always cuts, keeping at most [length + m]
    characters, as Python's [text[:m]] does. *)
Theorem sanitize_string_bounds (text : string) (m : Z) :
  sanitize_string text None = py_strip text /\
  sanitize_string text (Some 0) = py_strip text /\
  (Z.of_nat (String.length (py_strip text)) <= m -> sanitize_string text (Some m) = py_strip text) /\
  (0 < m -> Z.of_nat (String.length (sanitize_string text (Some m))) <= m) /\
  (m < 0 -> Z.of_nat (String.length (sanitize_string text (Some m)))
            <= Z.max 0 (Z.of_nat (String.length (py_strip text)) + m)).
Proof.
  unfold sanitize_string. split; [reflexivity|]. split; [reflexivity|].
  set (t := py_strip text).
  split; [|split].
  - intros H. destruct (Z.ltb_spec m (Z.of_nat (String.length t))); [lia|].
    now rewrite andb_false_r.
  - intros H. destruct (Z.eqb_spec m 0) as [|_]; [lia|].
    destruct (Z.ltb_spec m (Z.of_nat (String.length t))); simpl; [|lia].
    destruct (Z.ltb_spec m 0); [lia|].
    pose proof (length_py_rstrip (substring 0 (Z.to_nat m) t)).
    pose proof (length_substring_prefix (Z.to_nat m) t). lia.
  - intros H. destruct (Z.eqb_spec m 0) as [|_]; [lia|].
    destruct (Z.ltb_spec m (Z.of_nat (String.length t))); simpl; [|lia].
    destruct (Z.ltb_spec m 0); [|lia].
    pose proof (length_py_rstrip (substring 0 (Z.to_nat (Z.max 0 (Z.of_nat (String.length t) + m))) t)).
    pose proof (length_substring_prefix (Z.to_nat (Z.max 0 (Z.of_nat (String.length t) + m))) t).
    lia.
Qed.

Lemma split_ws_from_spaces (l : list ascii) :
  forallb is_py_space l = true -> split_ws_from [] l = [].
Proof.
  induction l as [|c l IH]; simpl; [reflexivity|].
  intros H. apply andb_true_iff in H as [Hc Hl]. rewrite Hc. exact (IH Hl).
Qed.

(** X15. [generate_thread_name_from_message] never returns an empty name
    and never one longer than 93 characters (90 kept by [sanitize_string]
    plus the ellipsis), so it stays under Discord's 100-character limit.
    A non-empty message made only of whitespace has no words: it is named
    "..." when longer than 50 characters and "New Thread" otherwise. *)
Theorem thread_name_bounds (message_content : string) :
  generate_thread_name_from_message message_content <> "" /\
  (String.length (generate_thread_name_from_message message_content) <= 93)%nat /\
  (message_content <> "" -> forallb is_py_space (chars message_content) = true ->
     generate_thread_name_from_message message_content
     = if 50 <? Z.of_nat (String.length message_content) then "..." else "New Thread").
Proof.
  unfold generate_thread_name_from_message.
  destruct (String.eqb_spec message_content "") as [->|Hne].
  - simpl. split; [discriminate|split; [lia|]]. intros H. contradiction H. reflexivity.
  - set (words := firstn 5 (py_split_ws message_content)).
    set (t0 := sanitize_string (String.concat " " words) (Some 90)).
    assert (H0 : (String.length t0 <= 90)%nat).
    { destruct (sanitize_string_bounds (String.concat " " words) 90) as (_ & _ & _ & H & _).
      specialize (H ltac:(lia)). fold t0 in H. lia. }
    set (t1 := if (5 <=? Z.of_nat (length words)) || (50 <? Z.of_nat (String.length message_content))
               then (t0 ++ "...")%string else t0).
    assert (H1 : (String.length t1 <= 93)%nat).
    { unfold t1. destruct (_ || _); [rewrite length_string_append; simpl|]; lia. }
    split; [|split].
    + destruct (String.eqb_spec t1 ""); [discriminate|assumption].
    + destruct (String.eqb_spec t1 ""); [simpl; lia|exact H1].
    + intros _ Hsp. unfold t1, t0, words, py_split_ws.
      rewrite split_ws_from_spaces by exact Hsp. simpl.
      destruct (50 <? Z.of_nat (String.length message_content)); reflexivity.
Qed.

(** ** Channel sets *)

Lemma Channels_mem_app (x c : Z) (cs : list Z) :
  Channels.mem x (cs ++ [c])%list = Channels.mem x cs || (x =? c).
Proof. unfold Channels.mem. rewrite existsb_app. simpl. now rewrite orb_false_r. Qed.

Lemma Channels_mem_filter (x c : Z) (cs : list Z) :
  Channels.mem x (filter (fun y => negb (y =? c)) cs) = Channels.mem x cs && negb (x =? c).
Proof.
  unfold Channels.mem. induction cs as [|y cs IH]; simpl; [reflexivity|].
  destruct (Z.eqb_spec y c) as [->|Hyc]; simpl.
  - rewrite IH. destruct (Z.eqb_spec x c); simpl; [now rewrite !andb_false_r|].
    rewrite !andb_true_r. reflexivity.
  - rewrite IH. destruct (Z.eqb_spec x y) as [->|_]; simpl; [|reflexivity].
    apply Z.eqb_neq in Hyc. now rewrite Hyc.
Qed.

Lemma Channels_mem_In (x : Z) (cs : list Z) : Channels.mem x cs = true <-> In x cs.
Proof.
  unfold Channels.mem. rewrite existsb_exists. split.
  - intros (y & Hy & E). apply Z.eqb_eq in E. now subst.
  - intros H. exists x. split; [exact H|apply Z.eqb_refl].
Qed.

Lemma NoDup_filter_Z (p : Z -> bool) (l : list Z) : NoDup l -> NoDup (filter p l).
Proof.
  induction 1 as [|x l Hx Hl IH]; simpl; [constructor|].
  destruct (p x); [|exact IH]. constructor; [|exact IH].
  intros Hin. apply filter_In in Hin. tauto.
Qed.

(** X16. The channel-set operations behave as set insertion, removal and
    clearing when they report success. Adding a channel already in the
    set and removing one not in it save nothing, change nothing and
    report [False]. A [True] from an add (a remove) means the stored set
    is the old one plus (minus) the channel; a [True] from a clear means
    it is empty; a successful add or remove never stores a channel twice.
    A [False] leaves the set unchanged unless a save failed while writing
    the file. *)
Theorem channel_set_ops (save_data : list Z -> Channels.SaveOutcome) (c : Z) (cs : list Z) :
  (Channels.mem c cs = true -> Channels.add_channel save_data c cs = (cs, false)) /\
  (Channels.mem c cs = false -> Channels.remove_channel save_data c cs = (cs, false)) /\
  (snd (Channels.add_channel save_data c cs) = true ->
     forall x, Channels.mem x (fst (Channels.add_channel save_data c cs))
               = Channels.mem x cs || (x =? c)) /\
  (snd (Channels.remove_channel save_data c cs) = true ->
     forall x, Channels.mem x (fst (Channels.remove_channel save_data c cs))
               = Channels.mem x cs && negb (x =? c)) /\
  (snd (Channels.clear_channels save_data cs) = true ->
     fst (Channels.clear_channels save_data cs) = []) /\
  (NoDup cs ->
     (snd (Channels.add_channel save_data c cs) = true ->
        NoDup (fst (Channels.add_channel save_data c cs))) /\
     (snd (Channels.remove_channel save_data c cs) = true ->
        NoDup (fst (Channels.remove_channel save_data c cs)))) /\
  ((forall l r, save_data l <> Channels.WriteFailed r) ->
     (snd (Channels.add_channel save_data c cs) = false ->
        fst (Channels.add_channel save_data c cs) = cs) /\
     (snd (Channels.remove_channel save_data c cs) = false ->
        fst (Channels.remove_channel save_data c cs) = cs) /\
     (snd (Channels.clear_channels save_data cs) = false ->
        fst (Channels.clear_channels save_data cs) = cs)).
Proof.
  unfold Channels.add_channel, Channels.remove_channel, Channels.clear_channels,
    Channels.set_channels.
  split; [intros H; now rewrite H|].
  split; [intros H; now rewrite H|].
  split; [|split; [|split; [|split]]].
  - destruct (Channels.mem c cs) eqn:Hc; simpl; [discriminate|].
    destruct (save_data (cs ++ [c])%list) as [| |r]; simpl; try discriminate.
    intros _ x. apply Channels_mem_app.
  - destruct (Channels.mem c cs) eqn:Hc; simpl; [|discriminate].
    destruct (save_data _) as [| |r]; simpl; try discriminate.
    intros _ x. apply Channels_mem_filter.
  - destruct (save_data []) as [| |r]; simpl; [reflexivity|discriminate|discriminate].
  - intros Hnd. split.
    + destruct (Channels.mem c cs) eqn:Hc; simpl; [discriminate|].
      destruct (save_data (cs ++ [c])%list) as [| |r]; simpl; try discriminate.
      intros _. apply NoDup_app; [exact Hnd|constructor; [intros []|constructor]|].
      intros x Hx [<-|[]]. apply Channels_mem_In in Hx. congruence.
    + destruct (negb _); simpl; [discriminate|].
      destruct (save_data _) as [| |r]; simpl; try discriminate.
      intros _. apply NoDup_filter_Z, Hnd.
  - intros Hw. split; [|split].
    + destruct (Channels.mem c cs); simpl; [reflexivity|].
      destruct (save_data (cs ++ [c])%list) as [| |r] eqn:E; simpl;
        [discriminate|reflexivity|exfalso; exact (Hw _ _ E)].
    + destruct (negb _); simpl; [reflexivity|].
      destruct (save_data _) as [| |r] eqn:E; simpl;
        [discriminate|reflexivity|exfalso; exact (Hw _ _ E)].
    + destruct (save_data []) as [| |r] eqn:E; simpl;
        [discriminate|reflexivity|exfalso; exact (Hw _ _ E)].
Qed.

(** X17. Adding a channel that is not in the set and then removing it
    gives back the stored set when both saves succeed, with both calls
    reporting [True]. Through [ThreadService], an uninitialized service
    runs no [DataManager] call: the set is unchanged and the call raises
    a [ServiceError] naming the operation. *)
Theorem channel_add_remove_roundtrip (save_data : list Z -> Channels.SaveOutcome)
    (c : Z) (cs : list Z) :
  Channels.mem c cs = false -> save_data (cs ++ [c])%list = Channels.Saved ->
  save_data cs = Channels.Saved ->
  Channels.add_channel save_data c cs = ((cs ++ [c])%list, true) /\
  Channels.remove_channel save_data c (cs ++ [c])%list = (cs, true) /\
  (forall name op,
     Channels.service_call name false op cs
     = (cs, Raise (Exc (name ++ " failed: ThreadService must be initialized before use")))).
Proof.
  intros Hc Hadd Hrem.
  unfold Channels.add_channel, Channels.remove_channel, Channels.set_channels.
  rewrite Hc, Hadd. split; [reflexivity|].
  rewrite Channels_mem_app, Z.eqb_refl, orb_true_r. simpl.
  assert (Hf : filter (fun x => negb (x =? c)) (cs ++ [c])%list = cs).
  { rewrite filter_app. simpl. rewrite Z.eqb_refl, app_nil_r. simpl.
    apply forallb_filter_id. apply forallb_forall. intros x Hx.
    destruct (Z.eqb_spec x c) as [->|_]; [|reflexivity].
    apply Channels_mem_In in Hx. congruence. }
  rewrite Hf, Hrem. split; [reflexivity|]. intros name op. reflexivity.
Qed.

Lemma channel_add_remove_roundtrip_witness :
  Channels.mem 42 [7; 9] = false /\
  Channels.remove_channel (fun _ => Channels.Saved) 42
    (fst (Channels.add_channel (fun _ => Channels.Saved) 42 [7; 9])) = ([7; 9], true).
Proof.
  split; [reflexivity|].
  destruct (channel_add_remove_roundtrip (fun _ => Channels.Saved) 42 [7; 9]
              eq_refl eq_refl eq_refl) as (Ha & Hr & _).
  rewrite Ha. exact Hr.
Defined.

(** ** Assignment ids *)

Lemma mod_mul_div (a b c : Z) : 0 < b -> 0 < c -> a mod (b * c) / b = (a / b) mod c.
Proof.
  intros Hb Hc. symmetry. apply Z.div_unique_pos with (a mod b); [apply Z.mod_pos_bound; lia|].
  rewrite (Z.mod_eq a (b * c)), (Z.mod_eq (a / b) c), <- Z.div_div by lia.
  rewrite (Z.div_mod a b) at 1 by lia. ring.
Qed.

(** The timestamp of an id reads the instant to the minute only. *)
Lemma strftime_id_minute (u u' : Z) :
  u / MINUTE = u' / MINUTE -> strftime_id u = strftime_id u'.
Proof.
  intros H. unfold strftime_id.
  assert (HD : forall x, x / DAY = x / MINUTE / 1440).
  { intros x. rewrite Z.div_div by (unfold MINUTE, SECOND; lia). reflexivity. }
  assert (HH : forall x, x mod DAY / HOUR = x / MINUTE / 60 mod 24).
  { intros x. change DAY with (HOUR * 24). rewrite mod_mul_div by (unfold HOUR, MINUTE, SECOND; lia).
    rewrite Z.div_div by (unfold MINUTE, SECOND; lia). reflexivity. }
  assert (HM : forall x, x mod HOUR / MINUTE = x / MINUTE mod 60).
  { intros x. change HOUR with (MINUTE * 60).
    apply mod_mul_div; unfold MINUTE, SECOND; lia. }
  now rewrite !HD, !HH, !HM, H.
Qed.

Lemma in_firstn_in {A} (n : nat) (l : list A) (x : A) : In x (firstn n l) -> In x l.
Proof.
  revert n. induction l as [|y l IH]; intros [|n]; simpl; try tauto.
  intros [->|H]; [left; reflexivity|right; exact (IH n H)].
Qed.

Lemma length_firstn_le {A} (n : nat) (l : list A) : (length (firstn n l) <= n)%nat.
Proof. rewrite length_firstn. lia. Qed.

(** X18. [_generate_assignment_id] reads the scheduled instant to the
    minute and the course name up to case: two assignments of the same
    title whose courses differ only in case and whose times fall in the
    same minute get the same id (so an upload takes the second for a
    duplicate of the first). The title part of an id is at most 20
    characters long and holds no space. *)
Theorem assignment_id_resolution (course course' title : string) (u u' : Z) :
  (py_lower course = py_lower course' -> u / MINUTE = u' / MINUTE ->
     generate_assignment_id course title u = generate_assignment_id course' title u') /\
  (String.length (clean_title title) <= 20)%nat /\
  ~ In " "%char (chars (clean_title title)).
Proof.
  split; [|split].
  - intros Hc Hu. unfold generate_assignment_id. now rewrite Hc, (strftime_id_minute u u' Hu).
  - unfold clean_title. rewrite length_string_of_list. apply length_firstn_le.
  - unfold clean_title. rewrite chars_string_of_list. intros Hin.
    apply in_firstn_in, in_map_iff in Hin as (c & Hc & _).
    destruct (Ascii.eqb_spec c " "%char); discriminate || contradiction.
Qed.

(** ** Cancelling the scheduler *)

(** X19. A cancellation delivered at a wake-up stops [_scheduler_loop]
    there: the later wake-ups are never run, and the loop ends either
    normally (the [break] of [except asyncio.CancelledError], when the
    cancellation arrives in the main sleep) or by letting the
    [CancelledError] escape (when it arrives in the 60-second sleep after
    an error); it never ends with any other exception. *)
Theorem scheduler_cancel_stops (save : assignments -> option string)
    (discord : HomeworkAssignment -> DiscordOutcome) (now pnow : Z)
    (rest : list (Z * Z * bool)) (s : HW) :
  scheduler_loop save discord ((now, pnow, true) :: rest) s
  = scheduler_loop save discord [(now, pnow, true)] s /\
  (snd (scheduler_loop save discord ((now, pnow, true) :: rest) s) = Ok tt \/
   snd (scheduler_loop save discord ((now, pnow, true) :: rest) s) = Raise CancelledError).
Proof.
  assert (H : forall s', snd (scheduler_iteration save discord now pnow true s') = Ok Break \/
                         snd (scheduler_iteration save discord now pnow true s') = Raise CancelledError).
  { intros s'. unfold scheduler_iteration.
    destruct ((d <-- get_store ;; process_due save discord pnow (due_assignments now d) ;;;
               sleep60 true) s') as [s1 [a|[m|]]] eqn:E.
    - exfalso. revert E. unfold bind, get_store, sleep60, raise.
      destruct (process_due _ _ _ _ _) as [s2 [x|e]]; intros E; discriminate.
    - right. reflexivity.
    - left. reflexivity. }
  cbn [scheduler_loop]. unfold bind.
  destruct (scheduler_iteration save discord now pnow true s) as [s1 r] eqn:E.
  specialize (H s). rewrite E in H. simpl in H.
  destruct H as [-> | ->]; split; try reflexivity; [left|right]; reflexivity.
Qed.
